(** * The integration consumer ([python-consumers/consumer.py])

    A shallow embedding of [IntegrationConsumer]: the two in-memory record
    buffers, the per-record ingestion methods, the merge-and-dispatch step,
    the time-based scheduler check and the consumer loop, followed by the
    properties of the aggregator that the specification states.

    Python values are modelled by [pyval]; a [dict] is a finite map from
    string keys ([gmap string pyval]).  The wall clock ([datetime.now()]) and
    the analytics endpoint ([requests.post]) are the two external
    collaborators: they are oracles of an environment [Env], and every call
    made to them is counted (clock) or recorded (HTTP) in the [World].

    The model is sequential: the methods run one at a time, so each
    [with self.lock:] block is a critical section by construction and the
    lock itself is not represented. *)

From Stdlib Require Import ZArith Lia.
From stdpp Require Import gmap strings list fin_maps pretty.

Local Open Scope string_scope.
Local Open Scope Z_scope.
Local Open Scope list_scope.

(** ** Python values *)

(** What [json.loads] can produce.  A float is carried by its literal: the
    consumer never computes with one, it only stores and forwards it. *)
#[warnings="-register-all"] Inductive pyval : Type :=
  | PyNone
  | PyBool (b : bool)
  | PyInt (z : Z)
  | PyFloat (literal : string)
  | PyStr (s : string)
  | PyList (l : list pyval)
  | PyDict (d : gmap string pyval).

(** One buffered record: the [dict] built by a [process_*_record] method. *)
Abbreviation pydict := (gmap string pyval).

(** [v == s] for a string literal [s]: true exactly on the [str] with the
    same characters (values of every other type compare unequal to a str). *)
Definition py_eq_str (v : pyval) (s : string) : bool :=
  match v with
  | PyStr s' => bool_decide (s' = s)
  | _ => false
  end.

(** [d.get(k)] on a dict: the value, or [None] when the key is absent. *)
Definition dict_get (d : pydict) (k : string) : pyval :=
  default PyNone (d !! k).

(** ** Exceptions and results *)

Inductive exn : Type :=
  | AttributeError (msg : string)
  | RequestException (msg : string)
  | KeyboardInterrupt.

Inductive outcome (A : Type) : Type :=
  | Returns (a : A)
  | Raises (e : exn).
Arguments Returns {A} a.
Arguments Raises {A} e.

(** [record.get(k)] on an arbitrary deserialized payload: only a dict has
    the method. *)
Definition py_get (v : pyval) (k : string) : outcome pyval :=
  match v with
  | PyDict d => Returns (dict_get d k)
  | _ => Raises (AttributeError "object has no attribute 'get'")
  end.

(** ** Data sent to the analytics endpoint *)

(** [merged_data['summary']] *)
Record Summary : Type := {
  total_customers : nat;
  total_products : nat;
  active_customers : nat
}.

(** [merged_data]: a dict with four fixed keys. *)
Record MergedData : Type := {
  timestamp : string;
  summary : Summary;
  customers : list pydict;
  inventory : list pydict
}.

(** One call [requests.post(url, json=..., headers=..., timeout=...)]. *)
Record PostRequest : Type := {
  url : string;
  json : MergedData;
  content_type : string;
  timeout : Z
}.

(** What the call does: it returns a response object, of which the
    consumer reads [status_code] and [text], or it raises one of the
    library's [requests.exceptions.RequestException] (connection error,
    timeout, ...). *)
Inductive http_outcome : Type :=
  | Response (status_code : Z) (text : string)
  | NetworkError (msg : string).

(** ** Configuration ([config.py]) *)

Record Config : Type := {
  CUSTOMER_TOPIC : string;
  INVENTORY_TOPIC : string;
  ANALYTICS_API_URL : string;
  MAX_RETRIES : Z;
  RETRY_DELAY : Z
}.

(** The values used when the environment variables are not set. *)
Definition default_config : Config :=
  {| CUSTOMER_TOPIC := "customer_data";
     INVENTORY_TOPIC := "inventory_data";
     ANALYTICS_API_URL := "http://localhost:8080";
     MAX_RETRIES := 3;
     RETRY_DELAY := 5 |}.

(** ** The consumer object and the world around it *)

(** The fields of [self].  Times are in microseconds (the resolution of
    [datetime]). *)
Record IntegrationConsumer : Type := {
  config : Config;
  customer_records : list pydict;
  inventory_records : list pydict;
  last_merge_time : Z;
  merge_interval_seconds : Z
}.

(** The records written by [logger]. *)
Inductive log_record : Type :=
  | Info_initialized (customer_topic inventory_topic : string)
  | Info_added_customer (name : pyval) (total : nat)
  | Info_added_product (name : pyval) (total : nat)
  | Info_no_data
  | Info_sent (ncustomers nproducts : nat)
  | Error_failed_status (status : Z) (text : string)
  | Error_sending (msg : string)
  | Info_starting_loop
  | Debug_processing (topic : string)
  | Info_shutting_down
  | Error_in_loop (e : string)
  | Info_starting.

(** The environment: [env_now k] is what the [k]-th reading of
    [datetime.now()] returns, [env_isoformat] is [datetime.isoformat], and
    [env_post k req] is what the analytics endpoint does with the [k]-th
    request sent to it. *)
Record Env : Type := {
  env_now : nat → Z;
  env_isoformat : Z → string;
  env_post : nat → PostRequest → http_outcome
}.

Record World : Type := {
  self : IntegrationConsumer;
  clock_reads : nat;
  http_calls : list PostRequest;
  log : list log_record;
  consumer_closed : bool
}.

Definition with_self (f : IntegrationConsumer → IntegrationConsumer)
    (w : World) : World :=
  {| self := f (self w);
     clock_reads := clock_reads w;
     http_calls := http_calls w;
     log := log w;
     consumer_closed := consumer_closed w |}.

Definition set_customer_records (l : list pydict)
    (c : IntegrationConsumer) : IntegrationConsumer :=
  {| config := config c;
     customer_records := l;
     inventory_records := inventory_records c;
     last_merge_time := last_merge_time c;
     merge_interval_seconds := merge_interval_seconds c |}.

Definition set_inventory_records (l : list pydict)
    (c : IntegrationConsumer) : IntegrationConsumer :=
  {| config := config c;
     customer_records := customer_records c;
     inventory_records := l;
     last_merge_time := last_merge_time c;
     merge_interval_seconds := merge_interval_seconds c |}.

Definition set_last_merge_time (t : Z)
    (c : IntegrationConsumer) : IntegrationConsumer :=
  {| config := config c;
     customer_records := customer_records c;
     inventory_records := inventory_records c;
     last_merge_time := t;
     merge_interval_seconds := merge_interval_seconds c |}.

(** ** A state-and-exception monad for the methods *)

Definition M (A : Type) : Type := World → outcome A * World.

Definition ret {A} (a : A) : M A := λ w, (Returns a, w).

Definition bind {A B} (m : M A) (k : A → M B) : M B :=
  λ w, match m w with
       | (Returns a, w') => k a w'
       | (Raises e, w') => (Raises e, w')
       end.

Definition raise {A} (e : exn) : M A := λ w, (Raises e, w).

Definition lift {A} (o : outcome A) : M A := λ w, (o, w).

Declare Scope py_scope.
Delimit Scope py_scope with py.
Notation "x <- m ;; k" := (bind m (λ x, k))
  (at level 100, m at next level, right associativity) : py_scope.
Notation "m ;; k" := (bind m (λ _, k))
  (at level 100, right associativity) : py_scope.

(** [try: body  except RequestException as e: handler e] *)
Definition try_except_RequestException {A} (body : M A)
    (handler : string → M A) : M A :=
  λ w, match body w with
       | (Raises (RequestException msg), w') => handler msg w'
       | r => r
       end.

(** [try: body  except KeyboardInterrupt: h1  except Exception as e: h2 e]
    Of the exceptions modelled here only [KeyboardInterrupt] is not an
    [Exception]. *)
Definition try_except {A} (body : M A) (on_interrupt : M A)
    (on_exception : exn → M A) : M A :=
  λ w, match body w with
       | (Raises KeyboardInterrupt, w') => on_interrupt w'
       | (Raises e, w') => on_exception e w'
       | r => r
       end.

(** [try: body  finally: cleanup] *)
Definition try_finally {A} (body : M A) (cleanup : M unit) : M A :=
  λ w, match body w with
       | (r, w') =>
           match cleanup w' with
           | (Returns _, w'') => (r, w'')
           | (Raises e, w'') => (Raises e, w'')
           end
       end.

Definition gets {A} (f : IntegrationConsumer → A) : M A :=
  λ w, (Returns (f (self w)), w).

Definition modify (f : IntegrationConsumer → IntegrationConsumer) : M unit :=
  λ w, (Returns tt, with_self f w).

Definition logger (r : log_record) : M unit :=
  λ w, (Returns tt,
        {| self := self w;
           clock_reads := clock_reads w;
           http_calls := http_calls w;
           log := log w ++ [r];
           consumer_closed := consumer_closed w |}).

(** ** List operations of the retention policy *)

(** [l[-k:]]: the slice that starts [k] places before the end, or at the
    beginning when the list is shorter. *)
Definition slice_last {A} (k : nat) (l : list A) : list A :=
  drop (length l - k) l.

(** [l[-100:] if len(l) > 100 else []] *)
Definition keep_last_100 {A} (l : list A) : list A :=
  if decide (100 < length l)%nat then slice_last 100 l else [].

(** [c.get('status') == 'active'] *)
Definition status_is_active (c : pydict) : bool :=
  py_eq_str (dict_get c "status") "active".

(** [timedelta(seconds=n)] in microseconds. *)
Definition timedelta_seconds (n : Z) : Z := n * 1000000.

(** ** The methods of [IntegrationConsumer] *)

Record message : Type := {
  topic : string;
  value : pyval
}.

(** What asking the Kafka iterator for its next element does: it yields a
    message, or the wait is cut short by an exception (an interrupt, or an
    error of the client). *)
Inductive poll : Type :=
  | Yield (m : message)
  | Signal (e : exn).

Section Methods.

Variable E : Env.

Local Open Scope py_scope.

(** [datetime.now()] *)
Definition datetime_now : M Z :=
  λ w, (Returns (env_now E (clock_reads w)),
        {| self := self w;
           clock_reads := S (clock_reads w);
           http_calls := http_calls w;
           log := log w;
           consumer_closed := consumer_closed w |}).

(** [requests.post(...)]: the call is recorded, and the endpoint's answer
    is returned or its exception raised. *)
Definition requests_post (req : PostRequest) : M (Z * string) :=
  λ w, let w' := {| self := self w;
                    clock_reads := clock_reads w;
                    http_calls := http_calls w ++ [req];
                    log := log w;
                    consumer_closed := consumer_closed w |} in
       match env_post E (length (http_calls w)) req with
       | Response code body => (Returns (code, body), w')
       | NetworkError msg => (Raises (RequestException msg), w')
       end.

(** [self.consumer.close()] *)
Definition consumer_close : M unit :=
  λ w, (Returns tt,
        {| self := self w;
           clock_reads := clock_reads w;
           http_calls := http_calls w;
           log := log w;
           consumer_closed := true |}).

(** [__init__], after the Kafka client has been created. *)
Definition init (cfg : Config) : World :=
  {| self := {| config := cfg;
                customer_records := [];
                inventory_records := [];
                last_merge_time := env_now E 0;
                merge_interval_seconds := 60 |};
     clock_reads := 1;
     http_calls := [];
     log := [Info_initialized (CUSTOMER_TOPIC cfg) (INVENTORY_TOPIC cfg)];
     consumer_closed := false |}.

Definition process_customer_record (record : pyval) : M unit :=
  v_id <- lift (py_get record "id") ;;
  v_name <- lift (py_get record "name") ;;
  v_email <- lift (py_get record "email") ;;
  v_status <- lift (py_get record "status") ;;
  v_created <- lift (py_get record "created_date") ;;
  now <- datetime_now ;;
  modify (λ c, set_customer_records
    (customer_records c ++
       [ <["id" := v_id]> (<["name" := v_name]> (<["email" := v_email]>
         (<["status" := v_status]> (<["created_date" := v_created]>
         (<["received_at" := PyStr (env_isoformat E now)]> ∅)))))]) c) ;;
  v_name' <- lift (py_get record "name") ;;
  total <- gets (λ c, length (customer_records c)) ;;
  logger (Info_added_customer v_name' total).

Definition process_inventory_record (record : pyval) : M unit :=
  v_id <- lift (py_get record "id") ;;
  v_name <- lift (py_get record "name") ;;
  v_price <- lift (py_get record "price") ;;
  v_quantity <- lift (py_get record "quantity") ;;
  v_category <- lift (py_get record "category") ;;
  now <- datetime_now ;;
  modify (λ c, set_inventory_records
    (inventory_records c ++
       [ <["id" := v_id]> (<["name" := v_name]> (<["price" := v_price]>
         (<["quantity" := v_quantity]> (<["category" := v_category]>
         (<["received_at" := PyStr (env_isoformat E now)]> ∅)))))]) c) ;;
  v_name' <- lift (py_get record "name") ;;
  total <- gets (λ c, length (inventory_records c)) ;;
  logger (Info_added_product v_name' total).

(** The dict built at lines 73-82. *)
Definition merged_data_of (c : IntegrationConsumer) (now : Z) : MergedData :=
  {| timestamp := env_isoformat E now;
     summary :=
       {| total_customers := length (customer_records c);
          total_products := length (inventory_records c);
          active_customers :=
            length (List.filter status_is_active (customer_records c)) |};
     customers := customer_records c;
     inventory := inventory_records c |}.

Definition merge_and_send_data : M unit :=
  c <- gets id ;;
  if bool_decide (customer_records c = []) && bool_decide (inventory_records c = [])
  then logger Info_no_data
  else
    now <- datetime_now ;;
    let merged_data := merged_data_of c now in
    try_except_RequestException
      (response <- requests_post
          {| url := ANALYTICS_API_URL (config c) +:+ "/analytics/data";
             json := merged_data;
             content_type := "application/json";
             timeout := 30 |} ;;
       if bool_decide (response.1 = 200)
       then
         c1 <- gets id ;;
         logger (Info_sent (length (customer_records c1))
                           (length (inventory_records c1))) ;;
         modify (λ c, set_customer_records
                        (keep_last_100 (customer_records c)) c) ;;
         modify (λ c, set_inventory_records
                        (keep_last_100 (inventory_records c)) c)
       else logger (Error_failed_status response.1 response.2))
      (λ msg, logger (Error_sending msg)).

Definition should_merge_data : M bool :=
  now <- datetime_now ;;
  c <- gets id ;;
  ret (bool_decide
         (timedelta_seconds (merge_interval_seconds c)
            ≤ now - last_merge_time c)%Z).

(** Lines 121-125 of the loop body: routing by topic. *)
Definition route (m : message) : M unit :=
  c <- gets id ;;
  if bool_decide (topic m = CUSTOMER_TOPIC (config c))
  then process_customer_record (value m)
  else if bool_decide (topic m = INVENTORY_TOPIC (config c))
  then process_inventory_record (value m)
  else ret tt.

(** Lines 127-130 of the loop body: the scheduler check. *)
Definition check_and_merge : M unit :=
  due <- should_merge_data ;;
  if due
  then
    merge_and_send_data ;;
    now <- datetime_now ;;
    modify (set_last_merge_time now)
  else ret tt.

(** One iteration of [for message in self.consumer]. *)
Definition loop_body (m : message) : M unit :=
  logger (Debug_processing (topic m)) ;;
  route m ;;
  check_and_merge.

Fixpoint for_each_message (source : list poll) : M unit :=
  match source with
  | [] => ret tt
  | Yield m :: rest => loop_body m ;; for_each_message rest
  | Signal e :: _ => raise e
  end.

Definition exn_str (e : exn) : string :=
  match e with
  | AttributeError msg => msg
  | RequestException msg => msg
  | KeyboardInterrupt => ""
  end.

Definition consume_messages (source : list poll) : M unit :=
  logger Info_starting_loop ;;
  try_finally
    (try_except (for_each_message source)
       (logger Info_shutting_down)
       (λ e, logger (Error_in_loop (exn_str e))))
    consumer_close.

Definition run (source : list poll) : M unit :=
  logger Info_starting ;;
  merge_and_send_data ;;
  consume_messages source.

End Methods.

(** ** Vocabulary of the statements *)

(** At least one buffer holds a record. *)
Definition has_data (c : IntegrationConsumer) : Prop :=
  customer_records c ≠ [] ∨ inventory_records c ≠ [].

(** The request that [merge_and_send_data] sends from world [w]: its
    timestamp is the next reading of the clock. *)
Definition dispatch_request (E : Env) (w : World) : PostRequest :=
  {| url := ANALYTICS_API_URL (config (self w)) +:+ "/analytics/data";
     json := merged_data_of E (self w) (env_now E (clock_reads w));
     content_type := "application/json";
     timeout := 30 |}.

(** What the endpoint does with that request. *)
Definition dispatch_answer (E : Env) (w : World) : http_outcome :=
  env_post E (length (http_calls w)) (dispatch_request E w).

(** The dispatch succeeded: a response with status 200. *)
Definition delivered (a : http_outcome) : Prop :=
  match a with
  | Response code _ => code = 200
  | NetworkError _ => False
  end.

#[global] Instance delivered_dec a : Decision (delivered a).
Proof. destruct a; simpl; apply _. Defined.

(** The customer has the status "active". *)
Definition is_active (c : pydict) : Prop :=
  c !! "status" = Some (PyStr "active").

#[global] Instance is_active_dec c : Decision (is_active c).
Proof.
  unfold is_active. destruct (c !! "status") as [[| | | |s| |]|];
    try (right; discriminate).
  destruct (decide (s = "active")) as [->|Hne]; [left; reflexivity|].
  right. intros [=]. contradiction.
Defined.

(** The scheduler check made in world [w] finds a merge due. *)
Definition merge_due (E : Env) (w : World) : Prop :=
  (timedelta_seconds (merge_interval_seconds (self w))
     ≤ env_now E (clock_reads w) - last_merge_time (self w))%Z.

#[global] Instance merge_due_dec E w : Decision (merge_due E w).
Proof. unfold merge_due. apply _. Defined.

Definition customer_fields : gset string :=
  {[ "id"; "name"; "email"; "status"; "created_date" ]}.

Definition inventory_fields : gset string :=
  {[ "id"; "name"; "price"; "quantity"; "category" ]}.

(** [after] is what the retention policy leaves of [prior]: nothing when
    [prior] has at most 100 elements, its last 100 elements otherwise. *)
Definition retained {A} (prior after : list A) : Prop :=
  ((length prior ≤ 100)%nat → after = [])
  ∧ ((100 < length prior)%nat →
       length after = 100%nat ∧ ∃ pre, prior = pre ++ after).

(** The requests sent between world [w] and the later world [w']. *)
Definition calls_since (w w' : World) : list PostRequest :=
  drop (length (http_calls w)) (http_calls w').

(** ** The mock services ([mock-apis/app.py])

    The Flask handlers as functions of what they read (the parsed request,
    the module-level lists, the draw of [random.random()], the clock) to
    the reply they give and, for the one that writes, the new list.  The
    delays ([time.sleep]) are left out. *)
Module MockApis.

Inductive failure : Type :=
  | ValueError
  | ZeroDivisionError
  | TypeError
  | NoGetAttribute.

(** A reply with its status code, or an exception that leaves the handler
    (Flask turns it into a 500 of its own). *)
Inductive reply (B : Type) : Type :=
  | Reply (code : Z) (body : B)
  | Unhandled (e : failure).
Arguments Reply {B} code body.
Arguments Unhandled {B} e.

(** Where a slice bound [i] falls in a list of length [len]: a negative
    bound counts from the end, and both ends are clipped. *)
Definition slice_bound (len i : Z) : Z :=
  if decide (i < 0) then Z.max (i + len) 0 else Z.min i len.

(** [l[start:stop]] *)
Definition py_slice {A} (start stop : Z) (l : list A) : list A :=
  let len := Z.of_nat (length l) in
  let a := slice_bound len start in
  let b := slice_bound len stop in
  take (Z.to_nat (b - a)) (drop (Z.to_nat a) l).

(** *** The listings: [get_customers] and [get_products] *)

Record listing (A : Type) : Type := {
  data : list A;
  page : Z;
  limit : Z;
  total : Z;
  total_pages : Z
}.
Arguments data {A} _.
Arguments page {A} _.
Arguments limit {A} _.
Arguments total {A} _.
Arguments total_pages {A} _.

Inductive listing_body (A : Type) : Type :=
  | Listing (l : listing A)
  | ListingError (msg : string).
Arguments Listing {A} l.
Arguments ListingError {A} msg.

(** [records[start:end]] with [start = (page - 1) * limit] and
    [end = start + limit]. *)
Definition page_slice {A} (records : list A) (page limit : Z) : list A :=
  py_slice ((page - 1) * limit) ((page - 1) * limit + limit) records.

(** [(len(records) + limit - 1) // limit], for a [limit] other than 0. *)
Definition page_count {A} (records : list A) (limit : Z) : Z :=
  (Z.of_nat (length records) + limit - 1) `div` limit.

Section Handlers.

(** [int(s)] for a str [s]: the integer it denotes, or nothing when the
    call raises [ValueError]. *)
Variable py_int : string → option Z.

(** [int(request.args.get(name, default))] for an argument given as [raw],
    or not given. *)
Definition int_arg (raw : option string) (default : Z) : option Z :=
  match raw with
  | None => Some default
  | Some s => py_int s
  end.

(** The body shared by [get_customers] and [get_products]; [unlucky] is
    the outcome of the test on [random.random()]. *)
Definition get_listing {A} (records : list A) (unavailable : string)
    (page_raw limit_raw : option string) (unlucky : bool)
    : reply (listing_body A) :=
  match int_arg page_raw 1 with
  | None => Unhandled ValueError
  | Some page =>
      match int_arg limit_raw 100 with
      | None => Unhandled ValueError
      | Some limit =>
          let response_data := page_slice records page limit in
          if unlucky then Reply 500 (ListingError unavailable)
          else if decide (limit = 0) then Unhandled ZeroDivisionError
          else Reply 200 (Listing
                 {| data := response_data;
                    page := page;
                    limit := limit;
                    total := Z.of_nat (length records);
                    total_pages := page_count records limit |})
      end
  end.

End Handlers.

(** *** The customers: [get_customer] and [create_customer] *)

(** An entry of [customers_data].  Every entry is built by the module
    with these five keys and an integer id; name and email of an entry
    made by [create_customer] are whatever the request held. *)
Record customer : Type := {
  id : Z;
  name : pyval;
  email : pyval;
  created_date : string;
  status : string
}.

Inductive customer_body : Type :=
  | Customer (c : customer)
  | CustomerError (msg : string).

(** [next((c for c in customers_data if c['id'] == customer_id), None)] *)
Definition find_customer (customers_data : list customer) (customer_id : Z)
    : option customer :=
  List.find (λ c, bool_decide (id c = customer_id)) customers_data.

Definition get_customer (customers_data : list customer) (customer_id : Z)
    : reply customer_body :=
  match find_customer customers_data customer_id with
  | Some c => Reply 200 (Customer c)
  | None => Reply 404 (CustomerError "Customer not found")
  end.

(** [max(ids)] for a non-empty list. *)
Definition max_id (first : Z) (others : list Z) : Z :=
  foldl Z.max first others.

(** [create_customer]: [payload] is [request.json] and [today] the date
    from the clock.  Returns the reply and the list afterwards. *)
Definition create_customer (customers_data : list customer) (payload : pyval)
    (today : string) : reply customer_body * list customer :=
  match id <$> customers_data with
  | [] => (Unhandled ValueError, customers_data)
  | first :: others =>
      let new_id := max_id first others + 1 in
      match payload with
      | PyDict d =>
          let new_customer :=
            {| id := new_id;
               name := dict_get d "name";
               email := dict_get d "email";
               created_date := today;
               status := "active" |} in
          (Reply 201 (Customer new_customer), customers_data ++ [new_customer])
      | _ => (Unhandled NoGetAttribute, customers_data)
      end
  end.

(** *** The analytics receiver: [receive_analytics_data] *)

Record receipt : Type := {
  customers_processed : nat;
  inventory_processed : nat;
  total_records : nat;
  processed_at : string
}.

Inductive receiver_body : Type :=
  | Processed (r : receipt)
  | NoData
  | Failed (e : failure).

Section Receiver.

(** Whether a float literal denotes a number other than zero, and the
    number of characters of a str: the two facts about values that the
    receiver needs and [pyval] does not fix. *)
Variable float_nonzero : string → bool.
Variable str_len : string → nat.

(** The truth value of a Python value. *)
Definition truthy (v : pyval) : bool :=
  match v with
  | PyNone => false
  | PyBool b => b
  | PyInt z => negb (bool_decide (z = 0))
  | PyFloat literal => float_nonzero literal
  | PyStr s => negb (bool_decide (s = ""))
  | PyList l => negb (bool_decide (l = []))
  | PyDict d => negb (bool_decide (d = ∅))
  end.

(** [len(v)] *)
Definition py_len (v : pyval) : option nat :=
  match v with
  | PyStr s => Some (str_len s)
  | PyList l => Some (length l)
  | PyDict d => Some (size d)
  | _ => None
  end.

(** The counting done on a dict body (lines 152-163): the two lengths, or
    the exception that the [except] clause turns into a 500. *)
Definition count_merged (d : pydict) : failure + nat * nat :=
  match py_len (default (PyList []) (d !! "customers")) with
  | None => inl TypeError
  | Some customers_count =>
      match py_len (default (PyList []) (d !! "inventory")) with
      | None => inl TypeError
      | Some inventory_count =>
          let summary := default (PyDict ∅) (d !! "summary") in
          if truthy summary
          then match summary with
               | PyDict _ => inr (customers_count, inventory_count)
               | _ => inl NoGetAttribute
               end
          else inr (customers_count, inventory_count)
      end
  end.

(** [receive_analytics_data]: [body] is what [request.get_json()] returned
    and [now] the clock's [isoformat] at the time of the reply. *)
Definition receive_analytics_data (body : pyval) (now : string)
    : reply receiver_body :=
  if negb (truthy body) then Reply 400 NoData
  else
    let counted :=
      match body with
      | PyDict d => count_merged d
      | PyList l => inr (length l, 0%nat)
      | _ => inr (1%nat, 0%nat)
      end in
    match counted with
    | inl e => Reply 500 (Failed e)
    | inr (customers_count, inventory_count) =>
        Reply 200 (Processed
          {| customers_processed := customers_count;
             inventory_processed := inventory_count;
             total_records := customers_count + inventory_count;
             processed_at := now |})
    end.

End Receiver.

(** The JSON that [requests.post(..., json=merged_data)] puts on the wire,
    as the receiver parses it. *)
Definition summary_json (s : Summary) : pyval :=
  PyDict (<["total_customers" := PyInt (Z.of_nat (total_customers s))]>
         (<["total_products" := PyInt (Z.of_nat (total_products s))]>
         (<["active_customers" := PyInt (Z.of_nat (active_customers s))]> ∅))).

Definition merged_data_json (m : MergedData) : pyval :=
  PyDict (<["timestamp" := PyStr (timestamp m)]>
         (<["summary" := summary_json (summary m)]>
         (<["customers" := PyList (PyDict <$> customers m)]>
         (<["inventory" := PyList (PyDict <$> inventory m)]> ∅)))).

(** The status code a client sees. *)
Definition status_seen {B} (r : reply B) : Z :=
  match r with
  | Reply code _ => code
  | Unhandled _ => 500
  end.

End MockApis.

(** ** The consumer in front of the mock receiver

    [requests.post(..., json=merged_data)] serialises the batch before it
    sends anything, with [allow_nan=False]: a NaN or an infinite float
    anywhere in the batch makes it raise [InvalidJSONError], which is a
    [RequestException]. *)
Section Wire.

(** Whether a float literal denotes a finite number. *)
Variable float_finite : string → bool.

(** No float inside the value is NaN or infinite. *)
Fixpoint finite_floats (v : pyval) : bool :=
  match v with
  | PyFloat literal => float_finite literal
  | PyList l => forallb finite_floats l
  | PyDict d => map_fold (λ _ v' rest, finite_floats v' && rest) true d
  | _ => true
  end.

(** The batch can be serialised: the timestamp is a string and the summary
    holds integers, so only the buffered records matter. *)
Definition sendable (m : MergedData) : bool :=
  forallb (λ r, finite_floats (PyDict r)) (customers m)
  && forallb (λ r, finite_floats (PyDict r)) (inventory m).

(** The analytics endpoint of environment [E] is the mock receiver behind
    [requests.post]: a batch that can be serialised is answered with the
    status the handler gives to its JSON, and for one that cannot the call
    raises. *)
Definition served_by_receiver (float_nonzero : string → bool)
    (str_len : string → nat) (E : Env) : Prop :=
  ∀ k req,
    if sendable (json req)
    then ∃ now text,
           env_post E k req
             = Response
                 (MockApis.status_seen
                    (MockApis.receive_analytics_data float_nonzero str_len
                       (MockApis.merged_data_json (json req)) now))
                 text
    else ∃ msg, env_post E k req = NetworkError msg.

End Wire.

(** [for p in payloads: f(p)] for one of the two ingestion methods [f], the
    way the tests feed a consumer. *)
Definition process_all (f : pyval → M unit) (payloads : list pydict)
    (w : World) : World :=
  foldl (λ w p, (f (PyDict p) w).2) w payloads.

(** ** Sample data

    The fixtures of [tests/test_consumer.py], a clock that advances one
    second per reading from 10:00:00 on 2024-01-15 (times are counted from
    midnight of that day), and endpoints that give every request the same
    answer. *)
Module Samples.

Definition two_digits (n : Z) : string :=
  pretty (n `div` 10) +:+ pretty (n `mod` 10).

(** [isoformat] for the times of that day that fall on a whole second. *)
Definition isoformat_day (t : Z) : string :=
  let s := t `div` 1000000 in
  "2024-01-15T" +:+ two_digits (s `div` 3600) +:+ ":" +:+
  two_digits ((s `div` 60) `mod` 60) +:+ ":" +:+ two_digits (s `mod` 60).

Definition env_with (answer : http_outcome) : Env :=
  {| env_now := λ k, 36000000000 + 1000000 * Z.of_nat k;
     env_isoformat := isoformat_day;
     env_post := λ _ _, answer |}.

Definition env_ok : Env := env_with (Response 200 "OK").
Definition env_500 : Env := env_with (Response 500 "Internal Server Error").
Definition env_down : Env := env_with (NetworkError "Connection refused").

Definition sample_customer : pydict :=
  <["id" := PyInt 1]> (<["name" := PyStr "John Doe"]>
    (<["email" := PyStr "john@example.com"]> (<["status" := PyStr "active"]>
    (<["created_date" := PyStr "2024-01-15"]> ∅)))).

Definition sample_product : pydict :=
  <["id" := PyInt 101]> (<["name" := PyStr "Laptop"]>
    (<["price" := PyFloat "999.99"]> (<["quantity" := PyInt 50]>
    (<["category" := PyStr "Electronics"]> ∅)))).

(** A customer payload with a field the consumer does not know and without
    three that it expects. *)
Definition customer_with_phone : pydict :=
  <["id" := PyInt 2]> (<["name" := PyStr "Ann Lee"]>
    (<["phone" := PyStr "555-0100"]> ∅)).

Definition fresh (E : Env) : World := init E default_config.

(** The world after the calls [process_customer_record(p)] for [p] in
    [payloads], made on a fresh consumer. *)
Definition after_customers (E : Env) (payloads : list pydict) : World :=
  foldl (λ w p, (process_customer_record E (PyDict p) w).2) (fresh E) payloads.

(** [sample_customer] with its id replaced, as in
    [test_data_cleanup_after_successful_send]. *)
Definition customer_numbered (i : nat) : pydict :=
  <["id" := PyInt (Z.of_nat i)]> sample_customer.

Definition one_customer (E : Env) : World :=
  after_customers E [sample_customer].

Definition customers_105 (E : Env) : World :=
  after_customers E (customer_numbered <$> seq 0 105).

Definition one_of_each (E : Env) : World :=
  (process_inventory_record E (PyDict sample_product) (one_customer E)).2.

(** An event on a topic the consumer does not route. *)
Definition order_event : message :=
  {| topic := "order_data"; value := PyDict sample_product |}.

(** A consumer whose last merge was more than a minute before the next
    reading of the clock. *)
Definition overdue (w : World) : World :=
  with_self (set_last_merge_time 0) w.

(** A configuration that gives both topics the same name. *)
Definition shared_topic_config : Config :=
  {| CUSTOMER_TOPIC := "records";
     INVENTORY_TOPIC := "records";
     ANALYTICS_API_URL := "http://localhost:8080";
     MAX_RETRIES := 3;
     RETRY_DELAY := 5 |}.

(** A customer event whose payload is a JSON array. *)
Definition array_event : message :=
  {| topic := "customer_data"; value := PyList [PyInt 1] |}.

(** The first entries of [customers_data]. *)
Definition mock_customers : list MockApis.customer :=
  [ {| MockApis.id := 1; MockApis.name := PyStr "John Doe";
       MockApis.email := PyStr "john@example.com";
       MockApis.created_date := "2024-01-15"; MockApis.status := "active" |};
    {| MockApis.id := 2; MockApis.name := PyStr "Jane Smith";
       MockApis.email := PyStr "jane@example.com";
       MockApis.created_date := "2024-02-10"; MockApis.status := "active" |};
    {| MockApis.id := 3; MockApis.name := PyStr "Bob Johnson";
       MockApis.email := PyStr "bob@example.com";
       MockApis.created_date := "2024-03-05"; MockApis.status := "inactive" |} ].

(** The body of a POST to [/customers]. *)
Definition new_customer_payload : pydict :=
  <["name" := PyStr "Ann Lee"]> (<["email" := PyStr "ann@example.com"]> ∅).

(** A reading of float literals for the samples: of the literals used here
    only the three constants that [json.loads] accepts are not finite. *)
Definition finite_literal (literal : string) : bool :=
  negb (bool_decide (literal ∈ ["NaN"; "Infinity"; "-Infinity"])).

(** The mock receiver as the endpoint, behind [requests.post]. *)
Definition env_receiver : Env :=
  {| env_now := λ k, 36000000000 + 1000000 * Z.of_nat k;
     env_isoformat := isoformat_day;
     env_post := λ _ req,
       if sendable finite_literal (json req)
       then Response
              (MockApis.status_seen
                 (MockApis.receive_analytics_data (λ _, true) String.length
                    (MockApis.merged_data_json (json req))
                    "2024-01-15T10:00:00"))
              "success"
       else NetworkError "Out of range float values are not JSON compliant" |}.

(** A product whose price arrived as the JSON constant NaN. *)
Definition nan_product : pydict :=
  <["price" := PyFloat "NaN"]> sample_product.

Definition one_nan_product (E : Env) : World :=
  (process_inventory_record E (PyDict nan_product) (fresh E)).2.

Example isoformat_day_ten_past :
  isoformat_day (env_now env_ok 601) = "2024-01-15T10:10:01".
Proof. reflexivity. Qed.

End Samples.

(** ** Lemmas on the list operations *)

Lemma keep_last_100_short {A} (l : list A) :
  (length l ≤ 100)%nat → keep_last_100 l = [].
Proof. intros Hl. unfold keep_last_100. case_decide; [lia | reflexivity]. Qed.

Lemma keep_last_100_long {A} (l : list A) :
  (100 < length l)%nat →
  l = take (length l - 100) l ++ keep_last_100 l
  ∧ length (keep_last_100 l) = 100%nat.
Proof.
  intros Hl. unfold keep_last_100, slice_last. case_decide; [|lia]. split.
  - symmetry. apply take_drop.
  - rewrite length_drop. lia.
Qed.

Lemma keep_last_100_cases {A} (l : list A) :
  keep_last_100 l = [] ∨ ∃ pre, l = pre ++ keep_last_100 l.
Proof.
  destruct (decide (100 < length l)%nat) as [Hl|Hl].
  - right. eexists. apply (keep_last_100_long l Hl).
  - left. apply keep_last_100_short. lia.
Qed.

Lemma status_is_active_spec (c : pydict) :
  status_is_active c = true ↔ is_active c.
Proof.
  unfold status_is_active, is_active, dict_get, py_eq_str.
  destruct (c !! "status") as [[| | | |s| |]|]; simpl;
    try (split; [discriminate | intros [=]]).
  rewrite bool_decide_eq_true. split; [intros ->; reflexivity | intros [=]; assumption].
Qed.

Lemma count_active_filter (l : list pydict) :
  length (List.filter status_is_active l) = length (filter is_active l).
Proof.
  induction l as [|c l IH]; [reflexivity|].
  simpl. rewrite filter_cons.
  destruct (status_is_active c) eqn:Hc; destruct (decide (is_active c)) as [Ha|Ha];
    simpl; try (rewrite IH; reflexivity).
  - apply status_is_active_spec in Hc. contradiction.
  - apply status_is_active_spec in Ha. congruence.
Qed.

Lemma has_data_customers c :
  (0 < length (customer_records c))%nat → has_data c.
Proof. intros Hl. left. intros Hnil. rewrite Hnil in Hl. simpl in Hl. lia. Qed.

(** ** Lemmas on [merge_and_send_data] *)

Lemma merge_and_send_data_empty E w :
  customer_records (self w) = [] → inventory_records (self w) = [] →
  merge_and_send_data E w = logger Info_no_data w.
Proof.
  intros Hc Hi. unfold merge_and_send_data, bind, gets, id.
  rewrite Hc, Hi. reflexivity.
Qed.

(** With data in a buffer the method reads the clock, sends one request
    and returns; the buffers are trimmed exactly when the answer is a
    response with status 200. *)
Lemma merge_and_send_data_has_data E w :
  has_data (self w) →
  ∃ w', merge_and_send_data E w = (Returns tt, w')
    ∧ http_calls w' = http_calls w ++ [dispatch_request E w]
    ∧ clock_reads w' = S (clock_reads w)
    ∧ consumer_closed w' = consumer_closed w
    ∧ self w' =
        if decide (delivered (dispatch_answer E w))
        then set_inventory_records (keep_last_100 (inventory_records (self w)))
               (set_customer_records (keep_last_100 (customer_records (self w)))
                  (self w))
        else self w.
Proof.
  intros Hd. unfold merge_and_send_data, bind at 1. unfold gets at 1, id.
  assert (bool_decide (customer_records (self w) = [])
          && bool_decide (inventory_records (self w) = []) = false) as ->.
  { apply andb_false_iff. destruct Hd as [Hd|Hd]; [left|right];
      apply bool_decide_eq_false; exact Hd. }
  unfold bind at 1, datetime_now, try_except_RequestException.
  unfold bind at 1, requests_post. simpl.
  fold (dispatch_request E w). fold (dispatch_answer E w).
  destruct (dispatch_answer E w) as [code text|msg]; simpl.
  - destruct (decide (code = 200)) as [->|Hne].
    + simpl. eexists. split; [reflexivity|]. simpl. auto.
    + rewrite (bool_decide_eq_false_2 _ Hne). simpl.
      eexists. split; [reflexivity|]. simpl.
      destruct (self w); auto.
  - eexists. split; [reflexivity|]. simpl. destruct (self w); auto.
Qed.

(** ** Merge and dispatch *)

Import Samples.

(** C6.  When both buffers are empty, [merge_and_send_data] sends no HTTP
    request, returns without raising and leaves the consumer (both buffers
    included) as it was. *)
Theorem merge_empty_buffers_noop E w :
  customer_records (self w) = [] → inventory_records (self w) = [] →
  ∃ w', merge_and_send_data E w = (Returns tt, w')
    ∧ http_calls w' = http_calls w
    ∧ self w' = self w.
Proof.
  intros Hc Hi. rewrite (merge_and_send_data_empty E w Hc Hi).
  eexists. split; [reflexivity|]. split; reflexivity.
Qed.

Lemma merge_empty_buffers_noop_witness :
  customer_records (self (fresh env_ok)) = []
  ∧ inventory_records (self (fresh env_ok)) = []
  ∧ ∃ w', merge_and_send_data env_ok (fresh env_ok) = (Returns tt, w')
      ∧ http_calls w' = http_calls (fresh env_ok)
      ∧ self w' = self (fresh env_ok).
Proof.
  split; [reflexivity|]. split; [reflexivity|].
  apply (merge_empty_buffers_noop env_ok (fresh env_ok)); reflexivity.
Defined.

(** C7.  Whatever the buffers hold and whatever the endpoint does (status
    200, another status, or a network error), [merge_and_send_data] returns
    normally and has sent at most one request: the requests recorded
    afterwards are those recorded before, followed by none or by one. *)
Theorem merge_single_attempt_never_raises E w :
  ∃ w', merge_and_send_data E w = (Returns tt, w')
    ∧ (http_calls w' = http_calls w
       ∨ ∃ req, http_calls w' = http_calls w ++ [req])
    ∧ (length (http_calls w') ≤ S (length (http_calls w)))%nat.
Proof.
  destruct (decide (customer_records (self w) = [])) as [Hc|Hc];
    [destruct (decide (inventory_records (self w) = [])) as [Hi|Hi]|].
  - destruct (merge_empty_buffers_noop E w Hc Hi) as (w' & Hrun & Hcalls & _).
    exists w'. rewrite Hcalls. split; [exact Hrun|]. split; [left; reflexivity | lia].
  - destruct (merge_and_send_data_has_data E w) as (w' & Hrun & Hcalls & _);
      [right; exact Hi|].
    exists w'. rewrite Hcalls, length_app. simpl.
    split; [exact Hrun|]. split; [right; eauto | lia].
  - destruct (merge_and_send_data_has_data E w) as (w' & Hrun & Hcalls & _);
      [left; exact Hc|].
    exists w'. rewrite Hcalls, length_app. simpl.
    split; [exact Hrun|]. split; [right; eauto | lia].
Qed.

(** C5.  With a record in at least one buffer, [merge_and_send_data] sends
    exactly one POST, to the analytics URL; in its body [total_customers]
    and [total_products] are the sizes of the two buffers,
    [active_customers] is the number of buffered customers whose status is
    "active", and [customers] and [inventory] are the buffers themselves, in
    order. *)
Theorem merge_posts_one_batch E w :
  has_data (self w) →
  ∃ w' req, merge_and_send_data E w = (Returns tt, w')
    ∧ http_calls w' = http_calls w ++ [req]
    ∧ url req = ANALYTICS_API_URL (config (self w)) +:+ "/analytics/data"
    ∧ total_customers (summary (json req)) = length (customer_records (self w))
    ∧ total_products (summary (json req)) = length (inventory_records (self w))
    ∧ active_customers (summary (json req))
        = length (filter is_active (customer_records (self w)))
    ∧ customers (json req) = customer_records (self w)
    ∧ inventory (json req) = inventory_records (self w).
Proof.
  intros Hd.
  destruct (merge_and_send_data_has_data E w Hd) as (w' & Hrun & Hcalls & _).
  exists w', (dispatch_request E w). repeat split; try assumption.
  simpl. apply count_active_filter.
Qed.

Lemma merge_posts_one_batch_witness :
  has_data (self (one_of_each env_ok))
  ∧ ∃ w' req, merge_and_send_data env_ok (one_of_each env_ok) = (Returns tt, w')
      ∧ http_calls w' = http_calls (one_of_each env_ok) ++ [req]
      ∧ url req = "http://localhost:8080/analytics/data"
      ∧ total_customers (summary (json req)) = 1%nat
      ∧ total_products (summary (json req)) = 1%nat
      ∧ active_customers (summary (json req)) = 1%nat.
Proof.
  assert (has_data (self (one_of_each env_ok))) as Hd
    by (apply has_data_customers; vm_compute; lia).
  split; [exact Hd|].
  destruct (merge_posts_one_batch env_ok (one_of_each env_ok) Hd)
    as (w' & req & Hrun & Hcalls & Hurl & Htc & Htp & Hac & _).
  exists w', req. repeat split; try assumption.
Defined.

(** C8.  Every batch that a call of [merge_and_send_data] builds and sends
    has [active_customers ≤ total_customers] in its summary. *)
Theorem active_customers_le_total E w :
  Forall (λ req, (active_customers (summary (json req))
                  ≤ total_customers (summary (json req)))%nat)
         (calls_since w (merge_and_send_data E w).2).
Proof.
  unfold calls_since.
  destruct (decide (has_data (self w))) as [Hd|Hd].
  - destruct (merge_and_send_data_has_data E w Hd) as (w' & Hrun & Hcalls & _).
    rewrite Hrun. simpl. rewrite Hcalls, drop_app_length.
    constructor; [|constructor]. simpl.
    rewrite count_active_filter. apply length_filter.
  - assert (customer_records (self w) = []) as Hc.
    { destruct (customer_records (self w)) eqn:Heq; [reflexivity|].
      exfalso. apply Hd. left. rewrite Heq. discriminate. }
    assert (inventory_records (self w) = []) as Hi.
    { destruct (inventory_records (self w)) eqn:Heq; [reflexivity|].
      exfalso. apply Hd. right. rewrite Heq. discriminate. }
    rewrite (merge_and_send_data_empty E w Hc Hi). simpl.
    rewrite drop_all. constructor.
Qed.

(** ** The retention policy *)

Lemma keep_last_100_retained {A} (l : list A) : retained l (keep_last_100 l).
Proof.
  split.
  - apply keep_last_100_short.
  - intros Hl. destruct (keep_last_100_long l Hl) as [Happ Hlen].
    split; [exact Hlen | eexists; exact Happ].
Qed.

(** The state of the buffers after a merge made with data at hand. *)
Lemma merge_buffers_after E w :
  has_data (self w) →
  (delivered (dispatch_answer E w) →
     customer_records (self (merge_and_send_data E w).2)
       = keep_last_100 (customer_records (self w))
     ∧ inventory_records (self (merge_and_send_data E w).2)
       = keep_last_100 (inventory_records (self w)))
  ∧ (¬ delivered (dispatch_answer E w) →
     self (merge_and_send_data E w).2 = self w).
Proof.
  intros Hd.
  destruct (merge_and_send_data_has_data E w Hd)
    as (w' & Hrun & _ & _ & _ & Hself).
  rewrite Hrun. simpl. rewrite Hself. split; intros Ha.
  - rewrite (decide_True _ _ Ha). split; reflexivity.
  - rewrite (decide_False _ _ Ha). reflexivity.
Qed.

(** C1, as stated, fails: the trim is not applied whatever the dispatch
    outcome.  One buffered customer and an endpoint answering 500: the
    customer is still in the buffer after the merge, where the trim would
    have left the buffer empty. *)
Lemma trim_unconditional_counterexample :
  ¬ (∀ E w, has_data (self w) →
       customer_records (self (merge_and_send_data E w).2)
         = keep_last_100 (customer_records (self w))
       ∧ inventory_records (self (merge_and_send_data E w).2)
         = keep_last_100 (inventory_records (self w))).
Proof.
  intros Hclaim.
  destruct (Hclaim env_500 (one_customer env_500)) as [Hc _].
  - apply has_data_customers. vm_compute. lia.
  - apply (f_equal length) in Hc. vm_compute in Hc. discriminate.
Qed.

(** C1, amended.  With a record in at least one buffer, the retention trim
    depends on the dispatch outcome: the buffers are trimmed when the
    endpoint answers with status 200, and the consumer is left as it was
    when it answers with another status or the request raises a network
    error. *)
Theorem trim_only_when_delivered E w :
  has_data (self w) →
  (delivered (dispatch_answer E w) →
     customer_records (self (merge_and_send_data E w).2)
       = keep_last_100 (customer_records (self w))
     ∧ inventory_records (self (merge_and_send_data E w).2)
       = keep_last_100 (inventory_records (self w)))
  ∧ (∀ code text, dispatch_answer E w = Response code text → code ≠ 200 →
       customer_records (self (merge_and_send_data E w).2)
         = customer_records (self w)
       ∧ inventory_records (self (merge_and_send_data E w).2)
         = inventory_records (self w))
  ∧ (∀ msg, dispatch_answer E w = NetworkError msg →
       customer_records (self (merge_and_send_data E w).2)
         = customer_records (self w)
       ∧ inventory_records (self (merge_and_send_data E w).2)
         = inventory_records (self w)).
Proof.
  intros Hd. destruct (merge_buffers_after E w Hd) as [Hyes Hno].
  split; [exact Hyes|]. split.
  - intros code text Ha Hne. rewrite Hno; [split; reflexivity|].
    rewrite Ha. simpl. exact Hne.
  - intros msg Ha. rewrite Hno; [split; reflexivity|].
    rewrite Ha. simpl. tauto.
Qed.

Lemma trim_only_when_delivered_witness :
  has_data (self (one_customer env_500))
  ∧ dispatch_answer env_500 (one_customer env_500)
      = Response 500 "Internal Server Error"
  ∧ customer_records (self (merge_and_send_data env_500 (one_customer env_500)).2)
      = customer_records (self (one_customer env_500)).
Proof.
  assert (has_data (self (one_customer env_500))) as Hd
    by (apply has_data_customers; vm_compute; lia).
  split; [exact Hd|]. split; [reflexivity|].
  destruct (trim_only_when_delivered env_500 (one_customer env_500) Hd)
    as (_ & Hstatus & _).
  apply (Hstatus 500 "Internal Server Error"); [reflexivity | lia].
Defined.

(** C3, as stated, fails: a buffer of more than 100 records is not always
    cut to 100 by the merge.  With 105 buffered customers and an endpoint
    that cannot be reached, all 105 are still buffered afterwards. *)
Lemma retain_always_counterexample :
  ¬ (∀ E w, (100 < length (customer_records (self w)))%nat →
       length (customer_records (self (merge_and_send_data E w).2)) = 100%nat).
Proof.
  intros Hclaim.
  assert (length (customer_records
            (self (merge_and_send_data env_down (customers_105 env_down)).2))
          = 105%nat) as Hlen by (vm_compute; reflexivity).
  rewrite Hclaim in Hlen; [discriminate|].
  vm_compute. lia.
Qed.

(** C3, amended.  With a record in at least one buffer, the batch that the
    merge sends holds the full prior contents of both buffers; when the
    endpoint answers with status 200, each buffer is afterwards empty if it
    held at most 100 records and holds exactly its last 100 records if it
    held more; on any other outcome both buffers are left as they were. *)
Theorem snapshot_full_retain_on_success E w :
  has_data (self w) →
  ∃ w' req, merge_and_send_data E w = (Returns tt, w')
    ∧ calls_since w w' = [req]
    ∧ customers (json req) = customer_records (self w)
    ∧ inventory (json req) = inventory_records (self w)
    ∧ (delivered (dispatch_answer E w) →
         retained (customer_records (self w)) (customer_records (self w'))
         ∧ retained (inventory_records (self w)) (inventory_records (self w')))
    ∧ (¬ delivered (dispatch_answer E w) →
         customer_records (self w') = customer_records (self w)
         ∧ inventory_records (self w') = inventory_records (self w)).
Proof.
  intros Hd.
  destruct (merge_and_send_data_has_data E w Hd) as (w' & Hrun & Hcalls & _).
  destruct (merge_buffers_after E w Hd) as [Hyes Hno].
  rewrite Hrun in Hyes, Hno. simpl in Hyes, Hno.
  exists w', (dispatch_request E w). split; [exact Hrun|]. split.
  { unfold calls_since. rewrite Hcalls. apply drop_app_length. }
  split; [reflexivity|]. split; [reflexivity|]. split.
  - intros Ha. destruct (Hyes Ha) as [-> ->].
    split; apply keep_last_100_retained.
  - intros Ha. rewrite (Hno Ha). split; reflexivity.
Qed.

(** The example of the specification: 105 buffered customers, status 200. *)
Lemma snapshot_full_retain_on_success_witness :
  has_data (self (customers_105 env_ok))
  ∧ delivered (dispatch_answer env_ok (customers_105 env_ok))
  ∧ ∃ w' req, merge_and_send_data env_ok (customers_105 env_ok) = (Returns tt, w')
      ∧ calls_since (customers_105 env_ok) w' = [req]
      ∧ length (customers (json req)) = 105%nat
      ∧ length (customer_records (self w')) = 100%nat
      ∧ ∃ pre, customer_records (self (customers_105 env_ok))
                 = pre ++ customer_records (self w').
Proof.
  assert (has_data (self (customers_105 env_ok))) as Hd
    by (apply has_data_customers; vm_compute; lia).
  assert (delivered (dispatch_answer env_ok (customers_105 env_ok))) as Ha
    by reflexivity.
  assert (length (customer_records (self (customers_105 env_ok))) = 105%nat)
    as Hlen by (vm_compute; reflexivity).
  split; [exact Hd|]. split; [exact Ha|].
  destruct (snapshot_full_retain_on_success env_ok (customers_105 env_ok) Hd)
    as (w' & req & Hrun & Hcalls & Hcust & _ & Hyes & _).
  destruct (Hyes Ha) as [[_ Hlong] _].
  destruct Hlong as [H100 Hpre]; [rewrite Hlen; lia|].
  exists w', req. rewrite Hcust, Hlen. repeat split; assumption.
Defined.

(** ** Ingestion *)

(** What [process_customer_record] does with a dict payload. *)
Lemma process_customer_record_dict E d w :
  ∃ r w', process_customer_record E (PyDict d) w = (Returns tt, w')
    ∧ customer_records (self w') = customer_records (self w) ++ [r]
    ∧ inventory_records (self w') = inventory_records (self w)
    ∧ dom r = customer_fields ∪ {["received_at"]}
    ∧ (∀ k, k ∈ customer_fields → r !! k = Some (dict_get d k))
    ∧ r !! "received_at"
        = Some (PyStr (env_isoformat E (env_now E (clock_reads w)))).
Proof.
  eexists _, _. split; [reflexivity|]. simpl.
  split; [reflexivity|]. split; [reflexivity|]. split; [|split].
  - unfold customer_fields. rewrite !dom_insert_L, dom_empty_L. set_solver.
  - intros k Hk. unfold customer_fields in Hk.
    rewrite !elem_of_union, !elem_of_singleton in Hk.
    destruct Hk as [[[[->| ->]| ->]| ->]| ->]; reflexivity.
  - reflexivity.
Qed.

Lemma process_inventory_record_dict E d w :
  ∃ r w', process_inventory_record E (PyDict d) w = (Returns tt, w')
    ∧ inventory_records (self w') = inventory_records (self w) ++ [r]
    ∧ customer_records (self w') = customer_records (self w)
    ∧ dom r = inventory_fields ∪ {["received_at"]}
    ∧ (∀ k, k ∈ inventory_fields → r !! k = Some (dict_get d k))
    ∧ r !! "received_at"
        = Some (PyStr (env_isoformat E (env_now E (clock_reads w)))).
Proof.
  eexists _, _. split; [reflexivity|]. simpl.
  split; [reflexivity|]. split; [reflexivity|]. split; [|split].
  - unfold inventory_fields. rewrite !dom_insert_L, dom_empty_L. set_solver.
  - intros k Hk. unfold inventory_fields in Hk.
    rewrite !elem_of_union, !elem_of_singleton in Hk.
    destruct Hk as [[[[->| ->]| ->]| ->]| ->]; reflexivity.
  - reflexivity.
Qed.

(** A payload that is not a dict has no [get]: the method raises before it
    touches the consumer. *)
Lemma process_customer_record_not_dict E v w :
  (∀ d, v ≠ PyDict d) →
  ∃ msg, process_customer_record E v w = (Raises (AttributeError msg), w).
Proof.
  intros Hv. destruct v; try (eexists; reflexivity).
  exfalso. eapply Hv. reflexivity.
Qed.

(** A stored record without its [received_at] is the payload, provided the
    payload has exactly the expected fields. *)
Lemma stored_without_stamp (fields : gset string) (d r : pydict) :
  "received_at" ∉ fields →
  dom r = fields ∪ {["received_at"]} →
  (∀ k, k ∈ fields → r !! k = Some (dict_get d k)) →
  dom d = fields →
  delete "received_at" r = d.
Proof.
  intros Hstamp Hdom Hval Hd. apply map_eq. intros k.
  destruct (decide (k = "received_at")) as [->|Hk].
  - rewrite lookup_delete_eq. symmetry. apply not_elem_of_dom.
    rewrite Hd. exact Hstamp.
  - rewrite lookup_delete_ne by congruence.
    destruct (decide (k ∈ fields)) as [Hin|Hout].
    + rewrite (Hval k Hin). unfold dict_get.
      rewrite <- Hd in Hin.
      destruct (proj1 (elem_of_dom d k) Hin) as [v Hv]. rewrite Hv. reflexivity.
    + assert (r !! k = None) as ->.
      { apply not_elem_of_dom. rewrite Hdom, elem_of_union, elem_of_singleton.
        intros [Hin|Heq]; [exact (Hout Hin) | exact (Hk Heq)]. }
      symmetry. apply not_elem_of_dom. rewrite Hd. exact Hout.
Qed.

Lemma stamp_not_customer_field : "received_at" ∉ customer_fields.
Proof. vm_compute. intros [=]. Qed.

Lemma stamp_not_inventory_field : "received_at" ∉ inventory_fields.
Proof. vm_compute. intros [=]. Qed.

(** C2, as stated, fails: the stored record is not the payload field for
    field.  The payload [{"id": 2, "name": "Ann Lee", "phone": "555-0100"}]
    is stored without its [phone], so the stored record without
    [received_at] differs from the payload. *)
Lemma passthrough_counterexample :
  ¬ (∀ E d w, ∃ r,
       customer_records (self (process_customer_record E (PyDict d) w).2)
         = customer_records (self w) ++ [r]
       ∧ delete "received_at" r = d).
Proof.
  intros Hclaim.
  destruct (Hclaim env_ok customer_with_phone (fresh env_ok)) as (r & Hrec & Heq).
  destruct (process_customer_record_dict env_ok customer_with_phone (fresh env_ok))
    as (r' & w' & Hrun & Hrec' & _ & Hdom & _).
  rewrite Hrun in Hrec. cbn [snd] in Hrec. rewrite Hrec' in Hrec.
  apply app_inj_tail in Hrec as [_ ->].
  assert (delete "received_at" r !! "phone" = None) as Hphone.
  { rewrite lookup_delete_ne by discriminate. apply not_elem_of_dom.
    rewrite Hdom. vm_compute. intros [=]. }
  rewrite Heq in Hphone. vm_compute in Hphone. discriminate.
Qed.

(** C2, amended.  For every payload that is a JSON object,
    [process_customer_record] and [process_inventory_record] check no value:
    they append a record that holds, for each of the five fields the method
    reads, the payload's value as it arrived (null when the payload lacks
    the field), and a [received_at] stamp taken from the clock at append
    time.  The stored record without [received_at] is exactly the payload
    when the payload's keys are exactly those five fields. *)
Theorem stores_expected_fields_unvalidated E d w :
  (∃ r w', process_customer_record E (PyDict d) w = (Returns tt, w')
     ∧ customer_records (self w') = customer_records (self w) ++ [r]
     ∧ r !! "received_at"
         = Some (PyStr (env_isoformat E (env_now E (clock_reads w))))
     ∧ (∀ k, k ∈ customer_fields → r !! k = Some (dict_get d k))
     ∧ (dom d = customer_fields → delete "received_at" r = d))
  ∧ (∃ r w', process_inventory_record E (PyDict d) w = (Returns tt, w')
     ∧ inventory_records (self w') = inventory_records (self w) ++ [r]
     ∧ r !! "received_at"
         = Some (PyStr (env_isoformat E (env_now E (clock_reads w))))
     ∧ (∀ k, k ∈ inventory_fields → r !! k = Some (dict_get d k))
     ∧ (dom d = inventory_fields → delete "received_at" r = d)).
Proof.
  split.
  - destruct (process_customer_record_dict E d w)
      as (r & w' & Hrun & Hrec & _ & Hdom & Hval & Hstamp).
    exists r, w'. repeat split; try assumption.
    apply (stored_without_stamp customer_fields);
      [exact stamp_not_customer_field | assumption | assumption].
  - destruct (process_inventory_record_dict E d w)
      as (r & w' & Hrun & Hrec & _ & Hdom & Hval & Hstamp).
    exists r, w'. repeat split; try assumption.
    apply (stored_without_stamp inventory_fields);
      [exact stamp_not_inventory_field | assumption | assumption].
Qed.

Lemma stores_expected_fields_unvalidated_witness :
  dom sample_customer = customer_fields
  ∧ ∃ r w', process_customer_record env_ok (PyDict sample_customer) (fresh env_ok)
              = (Returns tt, w')
      ∧ customer_records (self w') = [r]
      ∧ r !! "received_at" = Some (PyStr "2024-01-15T10:00:01")
      ∧ r !! "status" = Some (PyStr "active")
      ∧ delete "received_at" r = sample_customer.
Proof.
  assert (dom sample_customer = customer_fields) as Hdom.
  { unfold sample_customer, customer_fields.
    rewrite !dom_insert_L, dom_empty_L. set_solver. }
  split; [exact Hdom|].
  destruct (stores_expected_fields_unvalidated env_ok sample_customer (fresh env_ok))
    as [(r & w' & Hrun & Hrec & Hstamp & Hval & Hsame) _].
  exists r, w'. split; [exact Hrun|]. split; [exact Hrec|].
  split; [exact Hstamp|]. split; [|exact (Hsame Hdom)].
  rewrite (Hval "status"); [reflexivity|].
  unfold customer_fields. set_solver.
Defined.

(** C10, as stated, fails for one key of the set: [received_at] is never
    stored as [None].  The payload of [sample_customer] has no [received_at],
    and the record stored for it holds the timestamp under that key. *)
Lemma absent_key_null_counterexample :
  ¬ (∀ E d w, ∃ r,
       customer_records (self (process_customer_record E (PyDict d) w).2)
         = customer_records (self w) ++ [r]
       ∧ ∀ k, k ∈ customer_fields ∪ {["received_at"]} →
           d !! k = None → r !! k = Some PyNone).
Proof.
  intros Hclaim.
  destruct (Hclaim env_ok sample_customer (fresh env_ok)) as (r & Hrec & Hnull).
  destruct (process_customer_record_dict env_ok sample_customer (fresh env_ok))
    as (r' & w' & Hrun & Hrec' & _ & _ & _ & Hstamp).
  rewrite Hrun in Hrec. cbn [snd] in Hrec. rewrite Hrec' in Hrec.
  apply app_inj_tail in Hrec as [_ ->].
  rewrite (Hnull "received_at") in Hstamp; [discriminate| |reflexivity].
  apply elem_of_union. right. apply elem_of_singleton. reflexivity.
Qed.

(** C10, amended.  The record that [process_customer_record] stores has
    exactly the keys id, name, email, status, created_date and received_at,
    and the one that [process_inventory_record] stores exactly the keys id,
    name, price, quantity, category and received_at: a payload key outside
    the set is not stored, and a key of the set other than received_at that
    the payload lacks is stored as [None]; received_at always holds the
    timestamp taken at append time, whatever the payload holds. *)
Theorem stored_records_have_fixed_keys E d w :
  (∃ r w', process_customer_record E (PyDict d) w = (Returns tt, w')
     ∧ customer_records (self w') = customer_records (self w) ++ [r]
     ∧ dom r = {[ "id"; "name"; "email"; "status"; "created_date";
                  "received_at" ]}
     ∧ (∀ k, k ∉ customer_fields → k ≠ "received_at" → r !! k = None)
     ∧ (∀ k, k ∈ customer_fields → d !! k = None → r !! k = Some PyNone)
     ∧ r !! "received_at"
         = Some (PyStr (env_isoformat E (env_now E (clock_reads w)))))
  ∧ (∃ r w', process_inventory_record E (PyDict d) w = (Returns tt, w')
     ∧ inventory_records (self w') = inventory_records (self w) ++ [r]
     ∧ dom r = {[ "id"; "name"; "price"; "quantity"; "category";
                  "received_at" ]}
     ∧ (∀ k, k ∉ inventory_fields → k ≠ "received_at" → r !! k = None)
     ∧ (∀ k, k ∈ inventory_fields → d !! k = None → r !! k = Some PyNone)
     ∧ r !! "received_at"
         = Some (PyStr (env_isoformat E (env_now E (clock_reads w))))).
Proof.
  split.
  - destruct (process_customer_record_dict E d w)
      as (r & w' & Hrun & Hrec & _ & Hdom & Hval & Hstamp).
    exists r, w'. split; [exact Hrun|]. split; [exact Hrec|].
    split; [|split; [|split; [|exact Hstamp]]].
    + rewrite Hdom. reflexivity.
    + intros k Hk Hne. apply not_elem_of_dom.
      rewrite Hdom, elem_of_union, elem_of_singleton.
      intros [Hin|Heq]; [exact (Hk Hin) | exact (Hne Heq)].
    + intros k Hk Hnone. rewrite (Hval k Hk). unfold dict_get.
      rewrite Hnone. reflexivity.
  - destruct (process_inventory_record_dict E d w)
      as (r & w' & Hrun & Hrec & _ & Hdom & Hval & Hstamp).
    exists r, w'. split; [exact Hrun|]. split; [exact Hrec|].
    split; [|split; [|split; [|exact Hstamp]]].
    + rewrite Hdom. reflexivity.
    + intros k Hk Hne. apply not_elem_of_dom.
      rewrite Hdom, elem_of_union, elem_of_singleton.
      intros [Hin|Heq]; [exact (Hk Hin) | exact (Hne Heq)].
    + intros k Hk Hnone. rewrite (Hval k Hk). unfold dict_get.
      rewrite Hnone. reflexivity.
Qed.

Lemma stored_records_have_fixed_keys_witness :
  ("phone" ∉ customer_fields) ∧ ("email" ∈ customer_fields)
  ∧ (customer_with_phone !! "email" = None)
  ∧ ∃ r w', process_customer_record env_ok (PyDict customer_with_phone)
              (fresh env_ok) = (Returns tt, w')
      ∧ customer_records (self w') = [r]
      ∧ r !! "phone" = None
      ∧ r !! "email" = Some PyNone
      ∧ r !! "received_at" = Some (PyStr "2024-01-15T10:00:01").
Proof.
  assert ("phone" ∉ customer_fields) as Hphone by (vm_compute; intros [=]).
  assert ("email" ∈ customer_fields) as Hemail
    by (unfold customer_fields; set_solver).
  assert (customer_with_phone !! "email" = None) as Hnone by reflexivity.
  split; [exact Hphone|]. split; [exact Hemail|]. split; [exact Hnone|].
  destruct (stored_records_have_fixed_keys env_ok customer_with_phone (fresh env_ok))
    as [(r & w' & Hrun & Hrec & _ & Hout & Habsent & Hstamp) _].
  exists r, w'. split; [exact Hrun|]. split; [exact Hrec|].
  split; [|split; [|exact Hstamp]].
  - apply Hout; [exact Hphone | discriminate].
  - apply Habsent; assumption.
Defined.

(** ** The scheduler and the consumer loop *)

(** What a merge leaves alone: it never raises, never moves
    [last_merge_time], only ever advances the clock, and each buffer
    afterwards is a tail of the buffer before. *)
Lemma merge_and_send_data_frame E w :
  ∃ w', merge_and_send_data E w = (Returns tt, w')
    ∧ last_merge_time (self w') = last_merge_time (self w)
    ∧ (clock_reads w ≤ clock_reads w')%nat
    ∧ (∃ pre, customer_records (self w) = pre ++ customer_records (self w'))
    ∧ (∃ pre, inventory_records (self w) = pre ++ inventory_records (self w')).
Proof.
  destruct (decide (has_data (self w))) as [Hd|Hd].
  - destruct (merge_and_send_data_has_data E w Hd)
      as (w' & Hrun & _ & Hclock & _ & Hself).
    exists w'. split; [exact Hrun|]. rewrite Hself, Hclock.
    destruct (decide (delivered (dispatch_answer E w))); simpl.
    + split; [reflexivity|]. split; [lia|]. split.
      * destruct (keep_last_100_cases (customer_records (self w))) as [->|Hpre];
          [eexists; symmetry; apply app_nil_r | exact Hpre].
      * destruct (keep_last_100_cases (inventory_records (self w))) as [->|Hpre];
          [eexists; symmetry; apply app_nil_r | exact Hpre].
    + split; [reflexivity|]. split; [lia|].
      split; exists []; reflexivity.
  - assert (customer_records (self w) = []) as Hc.
    { destruct (customer_records (self w)) eqn:Heq; [reflexivity|].
      exfalso. apply Hd. left. rewrite Heq. discriminate. }
    assert (inventory_records (self w) = []) as Hi.
    { destruct (inventory_records (self w)) eqn:Heq; [reflexivity|].
      exfalso. apply Hd. right. rewrite Heq. discriminate. }
    rewrite (merge_and_send_data_empty E w Hc Hi).
    eexists. split; [reflexivity|]. simpl. split; [reflexivity|].
    split; [lia|]. split; exists []; reflexivity.
Qed.


(** The scheduler block of the loop body, when a merge is due: the merge
    is attempted, and whatever came of it the clock is read again and
    [last_merge_time] set to that reading. *)
Lemma check_and_merge_due E w :
  merge_due E w →
  ∃ w', check_and_merge E w = (Returns tt, w')
    ∧ last_merge_time (self w') = env_now E (pred (clock_reads w'))
    ∧ (clock_reads w < pred (clock_reads w'))%nat
    ∧ (∃ pre, customer_records (self w) = pre ++ customer_records (self w'))
    ∧ (∃ pre, inventory_records (self w) = pre ++ inventory_records (self w')).
Proof.
  intros Hdue. unfold check_and_merge, bind at 1.
  unfold should_merge_data, bind at 1. unfold datetime_now at 1.
  unfold bind at 1, gets at 1, ret, id. cbn [self clock_reads].
  unfold merge_due in Hdue. rewrite (bool_decide_eq_true_2 _ Hdue).
  unfold bind at 1.
  match goal with
  | |- context [merge_and_send_data E ?w1] =>
      destruct (merge_and_send_data_frame E w1)
        as (w2 & Hrun & _ & Hclock & Hcust & Hinv)
  end.
  rewrite Hrun. cbn in Hclock, Hcust, Hinv.
  eexists. split; [reflexivity|]. cbn.
  split; [reflexivity|]. split; [lia|]. split; assumption.
Qed.





(** The tail in C9 can be a proper one: the scheduler block runs after
    every event, so an ignored event that arrives when a merge is due is
    followed by a merge, and a delivered merge trims the buffers. *)
Example ignored_event_then_due_merge :
  length (customer_records (self (overdue (one_customer env_ok)))) = 1%nat
  ∧ length (customer_records
      (self (loop_body env_ok order_event (overdue (one_customer env_ok))).2))
    = 0%nat.
Proof. split; vm_compute; reflexivity. Qed.

(** C4, as stated, fails for the flush attempt made at startup: [run] does
    not touch [last_merge_time].  A consumer built at 10:00:00 that has
    buffered one customer and is then run sends its startup batch stamped
    10:00:02, yet [last_merge_time] is still 10:00:00 afterwards, which is no
    reading of the clock made from [run] on. *)
Lemma startup_flush_reset_counterexample :
  ¬ (∀ E w, ∃ k, (clock_reads w ≤ k)%nat
       ∧ last_merge_time (self (run E [] w).2) = env_now E k).
Proof.
  intros Hclaim.
  destruct (Hclaim env_500 (one_customer env_500)) as (k & Hk & Heq).
  assert (clock_reads (one_customer env_500) = 2%nat) as Hreads
    by (vm_compute; reflexivity).
  assert (last_merge_time (self (run env_500 [] (one_customer env_500)).2)
          = 36000000000) as Hlast by (vm_compute; reflexivity).
  rewrite Hreads in Hk. rewrite Hlast in Heq.
  unfold env_500, env_with in Heq. cbn [env_now] in Heq. lia.
Qed.

(** C4, amended.  After every flush attempt made by the loop (the
    scheduler block of the loop body, entered when a merge is due),
    whether the dispatch succeeded or failed, [last_merge_time] is the
    reading of the clock taken right after the attempt.  The flush attempt
    that [run] makes at startup leaves [last_merge_time] as it was. *)
Theorem last_merge_time_reset_by_loop_only E w :
  (merge_due E w →
     ∃ w', check_and_merge E w = (Returns tt, w')
       ∧ last_merge_time (self w') = env_now E (pred (clock_reads w'))
       ∧ (clock_reads w < pred (clock_reads w'))%nat)
  ∧ (∃ w', run E [] w = (Returns tt, w')
       ∧ last_merge_time (self w') = last_merge_time (self w)).
Proof.
  split.
  - intros Hdue.
    destruct (check_and_merge_due E w Hdue) as (w' & Hrun & Hlast & Hclock & _).
    exists w'. split; [exact Hrun|]. split; assumption.
  - unfold run, bind at 1. unfold logger at 1. unfold bind at 1.
    match goal with
    | |- context [merge_and_send_data E ?w1] =>
        destruct (merge_and_send_data_frame E w1) as (w2 & Hrun & Hlast & _)
    end.
    rewrite Hrun. eexists. split; [reflexivity|]. exact Hlast.
Qed.

Lemma last_merge_time_reset_by_loop_only_witness :
  merge_due env_500 (overdue (one_customer env_500))
  ∧ ∃ w', check_and_merge env_500 (overdue (one_customer env_500))
            = (Returns tt, w')
      ∧ last_merge_time (self w') = env_now env_500 (pred (clock_reads w'))
      ∧ (clock_reads (overdue (one_customer env_500)) < pred (clock_reads w'))%nat.
Proof.
  assert (merge_due env_500 (overdue (one_customer env_500))) as Hdue
    by (vm_compute; discriminate).
  split; [exact Hdue|].
  exact (proj1 (last_merge_time_reset_by_loop_only env_500
                  (overdue (one_customer env_500))) Hdue).
Defined.


(** ** Further properties of the consumer *)

(** *** Ingestion keeps the order of the calls *)

Lemma process_all_cons f p ps w :
  process_all f (p :: ps) w = process_all f ps (f (PyDict p) w).2.
Proof. reflexivity. Qed.

Lemma process_customer_record_clock E d w :
  clock_reads (process_customer_record E (PyDict d) w).2 = S (clock_reads w)
  ∧ http_calls (process_customer_record E (PyDict d) w).2 = http_calls w.
Proof. split; reflexivity. Qed.

Lemma process_inventory_record_clock E d w :
  clock_reads (process_inventory_record E (PyDict d) w).2 = S (clock_reads w)
  ∧ http_calls (process_inventory_record E (PyDict d) w).2 = http_calls w.
Proof. split; reflexivity. Qed.

(** X1.  [n] calls of [process_customer_record] with dict payloads append [n]
    records to the customer buffer, in the order of the calls: the [i]-th
    new record carries the fields of the [i]-th payload and the stamp of
    the [i]-th reading of the clock; the inventory buffer is not touched. *)
Theorem customers_appended_in_call_order E payloads w :
  ∃ stored,
    customer_records (self (process_all (process_customer_record E) payloads w))
      = customer_records (self w) ++ stored
    ∧ length stored = length payloads
    ∧ inventory_records (self (process_all (process_customer_record E) payloads w))
      = inventory_records (self w)
    ∧ ∀ i p, payloads !! i = Some p →
        ∃ r, stored !! i = Some r
          ∧ (∀ k, k ∈ customer_fields → r !! k = Some (dict_get p k))
          ∧ r !! "received_at"
              = Some (PyStr (env_isoformat E (env_now E (clock_reads w + i)))).
Proof.
  revert w. induction payloads as [|p ps IH]; intros w.
  - exists []. simpl. rewrite app_nil_r.
    split; [reflexivity|]. split; [reflexivity|]. split; [reflexivity|].
    intros i q Hq. discriminate.
  - destruct (process_customer_record_dict E p w)
      as (r & w1 & Hrun & Hrec & Hinv & _ & Hval & Hstamp).
    destruct (process_customer_record_clock E p w) as [Hclock _].
    rewrite process_all_cons, Hrun in *. cbn [snd] in *.
    destruct (IH w1) as (stored & Hall & Hlen & Hinv' & Hnth).
    exists (r :: stored). rewrite Hall, Hrec, <- app_assoc. simpl.
    split; [reflexivity|]. split; [rewrite Hlen; reflexivity|].
    split; [rewrite Hinv', Hinv; reflexivity|].
    intros [|i] q Hq; simpl in Hq.
    + injection Hq as <-. exists r. rewrite Nat.add_0_r. auto.
    + destruct (Hnth i q Hq) as (r' & Hr' & Hval' & Hstamp').
      exists r'. split; [exact Hr'|]. split; [exact Hval'|].
      rewrite Hstamp', Hclock. do 4 f_equal. lia.
Qed.

Lemma customers_appended_in_call_order_witness :
  [sample_customer; customer_with_phone] !! 1%nat = Some customer_with_phone
  ∧ ∃ stored,
      customer_records
        (self (process_all (process_customer_record env_ok)
                 [sample_customer; customer_with_phone] (fresh env_ok)))
        = stored
      ∧ ∃ r, stored !! 1%nat = Some r
          ∧ r !! "name" = Some (PyStr "Ann Lee")
          ∧ r !! "received_at" = Some (PyStr "2024-01-15T10:00:02").
Proof.
  split; [reflexivity|].
  destruct (customers_appended_in_call_order env_ok
              [sample_customer; customer_with_phone] (fresh env_ok))
    as (stored & Hall & _ & _ & Hnth).
  exists stored. split; [exact Hall|].
  destruct (Hnth 1%nat customer_with_phone eq_refl) as (r & Hr & Hval & Hstamp).
  exists r. split; [exact Hr|]. split; [|exact Hstamp].
  rewrite (Hval "name"); [reflexivity|]. unfold customer_fields. set_solver.
Defined.

(** X2.  [n] calls of [process_inventory_record] with dict payloads append [n]
    records to the inventory buffer, in the order of the calls, each with
    the fields of its payload and the stamp of its reading of the clock;
    the customer buffer is not touched. *)
Theorem products_appended_in_call_order E payloads w :
  ∃ stored,
    inventory_records (self (process_all (process_inventory_record E) payloads w))
      = inventory_records (self w) ++ stored
    ∧ length stored = length payloads
    ∧ customer_records (self (process_all (process_inventory_record E) payloads w))
      = customer_records (self w)
    ∧ ∀ i p, payloads !! i = Some p →
        ∃ r, stored !! i = Some r
          ∧ (∀ k, k ∈ inventory_fields → r !! k = Some (dict_get p k))
          ∧ r !! "received_at"
              = Some (PyStr (env_isoformat E (env_now E (clock_reads w + i)))).
Proof.
  revert w. induction payloads as [|p ps IH]; intros w.
  - exists []. simpl. rewrite app_nil_r.
    split; [reflexivity|]. split; [reflexivity|]. split; [reflexivity|].
    intros i q Hq. discriminate.
  - destruct (process_inventory_record_dict E p w)
      as (r & w1 & Hrun & Hrec & Hcust & _ & Hval & Hstamp).
    destruct (process_inventory_record_clock E p w) as [Hclock _].
    rewrite process_all_cons, Hrun in *. cbn [snd] in *.
    destruct (IH w1) as (stored & Hall & Hlen & Hcust' & Hnth).
    exists (r :: stored). rewrite Hall, Hrec, <- app_assoc. simpl.
    split; [reflexivity|]. split; [rewrite Hlen; reflexivity|].
    split; [rewrite Hcust', Hcust; reflexivity|].
    intros [|i] q Hq; simpl in Hq.
    + injection Hq as <-. exists r. rewrite Nat.add_0_r. auto.
    + destruct (Hnth i q Hq) as (r' & Hr' & Hval' & Hstamp').
      exists r'. split; [exact Hr'|]. split; [exact Hval'|].
      rewrite Hstamp', Hclock. do 4 f_equal. lia.
Qed.

Lemma products_appended_in_call_order_witness :
  [sample_product] !! 0%nat = Some sample_product
  ∧ ∃ stored,
      inventory_records
        (self (process_all (process_inventory_record env_ok)
                 [sample_product] (fresh env_ok)))
        = stored
      ∧ ∃ r, stored !! 0%nat = Some r
          ∧ r !! "price" = Some (PyFloat "999.99")
          ∧ r !! "received_at" = Some (PyStr "2024-01-15T10:00:01").
Proof.
  split; [reflexivity|].
  destruct (products_appended_in_call_order env_ok [sample_product] (fresh env_ok))
    as (stored & Hall & _ & _ & Hnth).
  exists stored. split; [exact Hall|].
  destruct (Hnth 0%nat sample_product eq_refl) as (r & Hr & Hval & Hstamp).
  exists r. split; [exact Hr|]. split; [|exact Hstamp].
  rewrite (Hval "price"); [reflexivity|]. unfold inventory_fields. set_solver.
Defined.

(** *** Two merges in a row *)

(** What a merge does not touch. *)
Lemma merge_and_send_data_settings E w :
  config (self (merge_and_send_data E w).2) = config (self w)
  ∧ merge_interval_seconds (self (merge_and_send_data E w).2)
      = merge_interval_seconds (self w)
  ∧ consumer_closed (merge_and_send_data E w).2 = consumer_closed w.
Proof.
  destruct (decide (has_data (self w))) as [Hd|Hd].
  - destruct (merge_and_send_data_has_data E w Hd)
      as (w' & Hrun & _ & _ & Hclosed & Hself).
    rewrite Hrun. cbn [snd]. rewrite Hself, Hclosed.
    destruct (decide (delivered (dispatch_answer E w))); auto.
  - assert (customer_records (self w) = []) as Hc.
    { destruct (customer_records (self w)) eqn:Heq; [reflexivity|].
      exfalso. apply Hd. left. rewrite Heq. discriminate. }
    assert (inventory_records (self w) = []) as Hi.
    { destruct (inventory_records (self w)) eqn:Heq; [reflexivity|].
      exfalso. apply Hd. right. rewrite Heq. discriminate. }
    rewrite (merge_and_send_data_empty E w Hc Hi). auto.
Qed.

(** X3.  A delivered merge of buffers that hold at most 100 records each empties
    both, so a merge made right after it sends nothing. *)
Theorem merge_after_delivery_sends_nothing E w :
  has_data (self w) →
  delivered (dispatch_answer E w) →
  (length (customer_records (self w)) ≤ 100)%nat →
  (length (inventory_records (self w)) ≤ 100)%nat →
  ∃ w1 w2, merge_and_send_data E w = (Returns tt, w1)
    ∧ merge_and_send_data E w1 = (Returns tt, w2)
    ∧ http_calls w2 = http_calls w ++ [dispatch_request E w]
    ∧ customer_records (self w2) = []
    ∧ inventory_records (self w2) = [].
Proof.
  intros Hd Ha Hc Hi.
  destruct (merge_and_send_data_has_data E w Hd)
    as (w1 & Hrun & Hcalls & _ & _ & Hself).
  rewrite (decide_True _ _ Ha) in Hself.
  rewrite (keep_last_100_short _ Hc), (keep_last_100_short _ Hi) in Hself.
  assert (customer_records (self w1) = []) as Hc1 by (rewrite Hself; reflexivity).
  assert (inventory_records (self w1) = []) as Hi1 by (rewrite Hself; reflexivity).
  exists w1. eexists. split; [exact Hrun|].
  rewrite (merge_and_send_data_empty E w1 Hc1 Hi1).
  split; [reflexivity|]. simpl. auto.
Qed.

Lemma merge_after_delivery_sends_nothing_witness :
  has_data (self (one_of_each env_ok))
  ∧ delivered (dispatch_answer env_ok (one_of_each env_ok))
  ∧ ∃ w1 w2, merge_and_send_data env_ok (one_of_each env_ok) = (Returns tt, w1)
      ∧ merge_and_send_data env_ok w1 = (Returns tt, w2)
      ∧ length (http_calls w2) = 1%nat
      ∧ customer_records (self w2) = []
      ∧ inventory_records (self w2) = [].
Proof.
  assert (has_data (self (one_of_each env_ok))) as Hd
    by (apply has_data_customers; vm_compute; lia).
  assert (delivered (dispatch_answer env_ok (one_of_each env_ok))) as Ha
    by reflexivity.
  split; [exact Hd|]. split; [exact Ha|].
  destruct (merge_after_delivery_sends_nothing env_ok (one_of_each env_ok) Hd Ha)
    as (w1 & w2 & Hrun1 & Hrun2 & Hcalls & Hc & Hi);
    [vm_compute; lia | vm_compute; lia |].
  exists w1, w2. rewrite Hcalls. repeat split; assumption.
Defined.

(** X4.  A merge that is not delivered leaves the records where they are, so the
    next merge sends them again: same records, same summary, same URL. *)
Theorem undelivered_batch_is_sent_again E w :
  has_data (self w) →
  ¬ delivered (dispatch_answer E w) →
  ∃ w1 w2 req1 req2, merge_and_send_data E w = (Returns tt, w1)
    ∧ merge_and_send_data E w1 = (Returns tt, w2)
    ∧ http_calls w2 = http_calls w ++ [req1; req2]
    ∧ url req2 = url req1
    ∧ summary (json req2) = summary (json req1)
    ∧ customers (json req2) = customers (json req1)
    ∧ inventory (json req2) = inventory (json req1).
Proof.
  intros Hd Ha.
  destruct (merge_and_send_data_has_data E w Hd)
    as (w1 & Hrun1 & Hcalls1 & _ & _ & Hself1).
  rewrite (decide_False _ _ Ha) in Hself1.
  assert (has_data (self w1)) as Hd1 by (rewrite Hself1; exact Hd).
  destruct (merge_and_send_data_has_data E w1 Hd1)
    as (w2 & Hrun2 & Hcalls2 & _).
  exists w1, w2, (dispatch_request E w), (dispatch_request E w1).
  split; [exact Hrun1|]. split; [exact Hrun2|].
  split; [rewrite Hcalls2, Hcalls1, <- app_assoc; reflexivity|].
  unfold dispatch_request, merged_data_of. simpl. rewrite Hself1. auto.
Qed.

Lemma undelivered_batch_is_sent_again_witness :
  has_data (self (one_customer env_down))
  ∧ ¬ delivered (dispatch_answer env_down (one_customer env_down))
  ∧ ∃ w1 w2 req1 req2,
      merge_and_send_data env_down (one_customer env_down) = (Returns tt, w1)
      ∧ merge_and_send_data env_down w1 = (Returns tt, w2)
      ∧ http_calls w2 = [req1; req2]
      ∧ customers (json req2) = customers (json req1).
Proof.
  assert (has_data (self (one_customer env_down))) as Hd
    by (apply has_data_customers; vm_compute; lia).
  assert (¬ delivered (dispatch_answer env_down (one_customer env_down))) as Ha
    by (intros H; exact H).
  split; [exact Hd|]. split; [exact Ha|].
  destruct (undelivered_batch_is_sent_again env_down (one_customer env_down) Hd Ha)
    as (w1 & w2 & req1 & req2 & Hrun1 & Hrun2 & Hcalls & _ & _ & Hcust & _).
  exists w1, w2, req1, req2. repeat split; assumption.
Defined.

(** X5.  A delivered merge of more than 100 customers keeps the last 100, and
    the next merge sends those 100 a second time. *)
Theorem retained_customers_are_sent_again E w :
  (100 < length (customer_records (self w)))%nat →
  delivered (dispatch_answer E w) →
  ∃ w1 w2 req1 req2, merge_and_send_data E w = (Returns tt, w1)
    ∧ merge_and_send_data E w1 = (Returns tt, w2)
    ∧ http_calls w2 = http_calls w ++ [req1; req2]
    ∧ customers (json req1) = customer_records (self w)
    ∧ length (customers (json req2)) = 100%nat
    ∧ total_customers (summary (json req2)) = 100%nat
    ∧ ∃ pre, customers (json req1) = pre ++ customers (json req2).
Proof.
  intros Hlen Ha.
  assert (has_data (self w)) as Hd by (apply has_data_customers; lia).
  destruct (merge_and_send_data_has_data E w Hd)
    as (w1 & Hrun1 & Hcalls1 & _ & _ & Hself1).
  rewrite (decide_True _ _ Ha) in Hself1.
  destruct (keep_last_100_long _ Hlen) as [Hpre H100].
  assert (customer_records (self w1) = keep_last_100 (customer_records (self w)))
    as Hc1 by (rewrite Hself1; reflexivity).
  assert (has_data (self w1)) as Hd1
    by (apply has_data_customers; rewrite Hc1, H100; lia).
  destruct (merge_and_send_data_has_data E w1 Hd1)
    as (w2 & Hrun2 & Hcalls2 & _).
  exists w1, w2, (dispatch_request E w), (dispatch_request E w1).
  split; [exact Hrun1|]. split; [exact Hrun2|].
  split; [rewrite Hcalls2, Hcalls1, <- app_assoc; reflexivity|].
  simpl. rewrite Hc1, H100.
  split; [reflexivity|]. split; [reflexivity|]. split; [reflexivity|].
  eexists. exact Hpre.
Qed.

Lemma retained_customers_are_sent_again_witness :
  (100 < length (customer_records (self (customers_105 env_ok))))%nat
  ∧ delivered (dispatch_answer env_ok (customers_105 env_ok))
  ∧ ∃ w1 w2 req1 req2,
      merge_and_send_data env_ok (customers_105 env_ok) = (Returns tt, w1)
      ∧ merge_and_send_data env_ok w1 = (Returns tt, w2)
      ∧ length (customers (json req1)) = 105%nat
      ∧ length (customers (json req2)) = 100%nat.
Proof.
  assert (length (customer_records (self (customers_105 env_ok))) = 105%nat)
    as Hlen by (vm_compute; reflexivity).
  assert (delivered (dispatch_answer env_ok (customers_105 env_ok))) as Ha
    by reflexivity.
  split; [rewrite Hlen; lia|]. split; [exact Ha|].
  destruct (retained_customers_are_sent_again env_ok (customers_105 env_ok))
    as (w1 & w2 & req1 & req2 & Hrun1 & Hrun2 & _ & Hreq1 & Hreq2 & _);
    [rewrite Hlen; lia | exact Ha |].
  exists w1, w2, req1, req2. rewrite Hreq1, Hlen. repeat split; assumption.
Defined.

(** *** The scheduler *)

(** X6.  While no merge is due the scheduler block sends nothing and leaves the
    consumer as it is. *)
Theorem no_request_before_merge_is_due E w :
  ¬ merge_due E w →
  ∃ w', check_and_merge E w = (Returns tt, w')
    ∧ self w' = self w
    ∧ http_calls w' = http_calls w.
Proof.
  intros Hdue. unfold check_and_merge, bind at 1.
  unfold should_merge_data, bind, datetime_now, gets, ret, id. simpl.
  unfold merge_due in Hdue. rewrite (bool_decide_eq_false_2 _ Hdue).
  eexists. split; [reflexivity|]. split; reflexivity.
Qed.

Lemma no_request_before_merge_is_due_witness :
  ¬ merge_due env_ok (one_customer env_ok)
  ∧ ∃ w', check_and_merge env_ok (one_customer env_ok) = (Returns tt, w')
      ∧ self w' = self (one_customer env_ok)
      ∧ http_calls w' = http_calls (one_customer env_ok).
Proof.
  assert (¬ merge_due env_ok (one_customer env_ok)) as Hdue
    by (vm_compute; intros H; apply H; reflexivity).
  split; [exact Hdue|].
  exact (no_request_before_merge_is_due env_ok (one_customer env_ok) Hdue).
Defined.

(** The scheduler block when a merge is due, in full: where the consumer
    and the clock stand afterwards. *)
Lemma check_and_merge_due_world E w :
  merge_due E w →
  ∃ w', check_and_merge E w = (Returns tt, w')
    ∧ last_merge_time (self w') = env_now E (pred (clock_reads w'))
    ∧ merge_interval_seconds (self w') = merge_interval_seconds (self w)
    ∧ config (self w') = config (self w)
    ∧ (clock_reads w < pred (clock_reads w'))%nat.
Proof.
  intros Hdue. unfold check_and_merge, bind at 1.
  unfold should_merge_data, bind at 1. unfold datetime_now at 1.
  unfold bind at 1, gets at 1, ret, id. cbn [self clock_reads].
  unfold merge_due in Hdue. rewrite (bool_decide_eq_true_2 _ Hdue).
  unfold bind at 1.
  match goal with
  | |- context [merge_and_send_data E ?w1] =>
      destruct (merge_and_send_data_frame E w1) as (w2 & Hrun & _ & Hclock & _);
      destruct (merge_and_send_data_settings E w1) as (Hcfg & Hint & _)
  end.
  rewrite Hrun in *. cbn in Hclock, Hcfg, Hint.
  eexists. split; [reflexivity|]. cbn.
  split; [reflexivity|]. split; [exact Hint|]. split; [exact Hcfg|]. lia.
Qed.

(** X7.  After a flush attempt made by the loop the schedule starts again from
    the reading of the clock taken at the reset: the next check finds a
    merge due exactly when a full interval lies between that reading and
    its own. *)
Theorem schedule_restarts_at_reset E w :
  merge_due E w →
  ∃ w', check_and_merge E w = (Returns tt, w')
    ∧ (merge_due E w' ↔
         (timedelta_seconds (merge_interval_seconds (self w))
            ≤ env_now E (clock_reads w') - env_now E (pred (clock_reads w')))%Z).
Proof.
  intros Hdue.
  destruct (check_and_merge_due_world E w Hdue)
    as (w' & Hrun & Hlast & Hint & _).
  exists w'. split; [exact Hrun|].
  unfold merge_due. rewrite Hlast, Hint. reflexivity.
Qed.

Lemma schedule_restarts_at_reset_witness :
  merge_due env_500 (overdue (one_customer env_500))
  ∧ ∃ w', check_and_merge env_500 (overdue (one_customer env_500))
            = (Returns tt, w')
      ∧ ¬ merge_due env_500 w'.
Proof.
  assert (merge_due env_500 (overdue (one_customer env_500))) as Hdue
    by (vm_compute; discriminate).
  split; [exact Hdue|].
  destruct (schedule_restarts_at_reset env_500 (overdue (one_customer env_500)) Hdue)
    as (w' & Hrun & Hiff).
  exists w'. split; [exact Hrun|].
  assert (merge_interval_seconds (self (overdue (one_customer env_500))) = 60)
    as Hint by (vm_compute; reflexivity).
  assert (clock_reads w' = 5%nat) as Hreads.
  { assert (clock_reads (check_and_merge env_500
              (overdue (one_customer env_500))).2 = 5%nat) as Hfive
      by (vm_compute; reflexivity).
    rewrite Hrun in Hfive. exact Hfive. }
  intros Hnext. apply Hiff in Hnext. rewrite Hint, Hreads in Hnext.
  vm_compute in Hnext. apply Hnext. reflexivity.
Defined.

(** *** The consumer loop *)

(** Routing sends no request. *)
Lemma route_http_calls E m w :
  http_calls (route E m w).2 = http_calls w.
Proof.
  unfold route, bind, gets, id.
  destruct (bool_decide (topic m = CUSTOMER_TOPIC (config (self w))));
    [destruct (value m); reflexivity|].
  destruct (bool_decide (topic m = INVENTORY_TOPIC (config (self w))));
    [destruct (value m); reflexivity | reflexivity].
Qed.

(** A routed payload that is not a dict raises before anything changes. *)
Lemma route_not_dict E m w :
  topic m = CUSTOMER_TOPIC (config (self w))
    ∨ topic m = INVENTORY_TOPIC (config (self w)) →
  (∀ d, value m ≠ PyDict d) →
  ∃ msg, route E m w = (Raises (AttributeError msg), w).
Proof.
  intros Htopic Hv. unfold route, bind, gets, id.
  destruct (bool_decide (topic m = CUSTOMER_TOPIC (config (self w)))) eqn:Hc.
  - destruct (value m); try (eexists; reflexivity).
    exfalso. eapply Hv. reflexivity.
  - destruct Htopic as [Ht|Ht];
      [apply bool_decide_eq_false in Hc; contradiction|].
    rewrite (bool_decide_eq_true_2 _ Ht).
    destruct (value m); try (eexists; reflexivity).
    exfalso. eapply Hv. reflexivity.
Qed.

(** The scheduler block never raises and sends at most one request. *)
Lemma check_and_merge_http_calls E w :
  ∃ w', check_and_merge E w = (Returns tt, w')
    ∧ (length (http_calls w') ≤ S (length (http_calls w)))%nat.
Proof.
  destruct (decide (merge_due E w)) as [Hdue|Hdue].
  - unfold check_and_merge, bind at 1.
    unfold should_merge_data, bind at 1. unfold datetime_now at 1.
    unfold bind at 1, gets at 1, ret, id. cbn [self clock_reads].
    unfold merge_due in Hdue. rewrite (bool_decide_eq_true_2 _ Hdue).
    unfold bind at 1.
    match goal with
    | |- context [merge_and_send_data E ?w1] =>
        destruct (decide (has_data (self w1))) as [Hd|Hd];
        [ destruct (merge_and_send_data_has_data E w1 Hd)
            as (w2 & Hrun & Hcalls & _)
        | assert (customer_records (self w1) = []) as Hc by
            (destruct (customer_records (self w1)) eqn:Heq; [reflexivity|];
             exfalso; apply Hd; left; rewrite Heq; discriminate);
          assert (inventory_records (self w1) = []) as Hi by
            (destruct (inventory_records (self w1)) eqn:Heq; [reflexivity|];
             exfalso; apply Hd; right; rewrite Heq; discriminate);
          pose proof (merge_and_send_data_empty E w1 Hc Hi) as Hrun ]
    end.
    + rewrite Hrun. eexists. split; [reflexivity|]. cbn.
      rewrite Hcalls, length_app. cbn. lia.
    + rewrite Hrun. eexists. split; [reflexivity|]. cbn. lia.
  - unfold check_and_merge, bind at 1.
    unfold should_merge_data, bind, datetime_now, gets, ret, id. simpl.
    unfold merge_due in Hdue. rewrite (bool_decide_eq_false_2 _ Hdue).
    eexists. split; [reflexivity|]. cbn. lia.
Qed.

(** One iteration of the loop sends at most one request, whether it
    returns or raises. *)
Lemma loop_body_http_calls E m w :
  (length (http_calls (loop_body E m w).2) ≤ S (length (http_calls w)))%nat.
Proof.
  change (loop_body E m w)
    with (bind (route E m) (λ _, check_and_merge E)
            (logger (Debug_processing (topic m)) w).2).
  pose proof (route_http_calls E m (logger (Debug_processing (topic m)) w).2)
    as Hroute.
  unfold bind.
  destruct (route E m (logger (Debug_processing (topic m)) w).2)
    as [[[]|e] w2]; cbn [snd] in Hroute |- *.
  - destruct (check_and_merge_http_calls E w2) as (w3 & Hrun & Hlen).
    rewrite Hrun. cbn [snd]. rewrite Hroute in Hlen. exact Hlen.
  - rewrite Hroute. cbn. lia.
Qed.

Lemma for_each_message_http_calls E source w :
  (length (http_calls (for_each_message E source w).2)
   ≤ length (http_calls w) + length source)%nat.
Proof.
  revert w. induction source as [|[m|e] rest IH]; intros w; simpl.
  - lia.
  - unfold bind. pose proof (loop_body_http_calls E m w) as Hbody.
    destruct (loop_body E m w) as [[[]|e] w1]; cbn in Hbody |- *.
    + specialize (IH w1). lia.
    + lia.
  - lia.
Qed.

Lemma consume_messages_loop E source w :
  ∃ w', consume_messages E source w = (Returns tt, w')
    ∧ consumer_closed w' = true
    ∧ (length (http_calls w') ≤ length (http_calls w) + length source)%nat.
Proof.
  pose proof (for_each_message_http_calls E source
                (logger Info_starting_loop w).2) as Hbound.
  change (http_calls (logger Info_starting_loop w).2)
    with (http_calls w) in Hbound.
  unfold consume_messages, bind at 1. unfold logger at 1.
  unfold try_finally, try_except. cbn [snd].
  change {| self := self w; clock_reads := clock_reads w;
            http_calls := http_calls w; log := log w ++ [Info_starting_loop];
            consumer_closed := consumer_closed w |}
    with (logger Info_starting_loop w).2.
  destruct (for_each_message E source (logger Info_starting_loop w).2)
    as [[[]|[msg|msg|]] w1];
    eexists; (split; [reflexivity|]); cbn [snd] in Hbound; cbn; auto.
Qed.

(** X8.  Whatever ends the loop (the source runs dry, an interrupt, an error in
    an iteration), [consume_messages] returns normally with the Kafka
    consumer closed, and ending the loop flushes nothing: the buffers and
    the requests sent are those the iterations left. *)
Theorem consume_messages_returns_closed E source w :
  ∃ w', consume_messages E source w = (Returns tt, w')
    ∧ consumer_closed w' = true
    ∧ self w' = self (for_each_message E source (logger Info_starting_loop w).2).2
    ∧ http_calls w'
        = http_calls (for_each_message E source (logger Info_starting_loop w).2).2.
Proof.
  unfold consume_messages, bind at 1. unfold logger at 1.
  unfold try_finally, try_except. cbn [snd].
  destruct (for_each_message E source _) as [[[]|[msg|msg|]] w1];
    eexists; (split; [reflexivity|]); cbn; auto.
Qed.

(** X9.  [run] returns normally whatever the source and the endpoint do, leaves
    the Kafka consumer closed, and sends at most one request at startup and
    one per element pulled from the source. *)
Theorem run_returns_closed_bounded_requests E source w :
  ∃ w', run E source w = (Returns tt, w')
    ∧ consumer_closed w' = true
    ∧ (length (http_calls w') ≤ length (http_calls w) + 1 + length source)%nat.
Proof.
  unfold run, bind at 1. unfold logger at 1. unfold bind at 1.
  match goal with
  | |- context [merge_and_send_data E ?w1] =>
      destruct (decide (has_data (self w1))) as [Hd|Hd];
      [ destruct (merge_and_send_data_has_data E w1 Hd)
          as (w2 & Hrun & Hcalls & _);
        assert (length (http_calls w2) ≤ S (length (http_calls w)))%nat as Hlen
          by (rewrite Hcalls, length_app; cbn; lia)
      | assert (customer_records (self w1) = []) as Hc by
          (destruct (customer_records (self w1)) eqn:Heq; [reflexivity|];
           exfalso; apply Hd; left; rewrite Heq; discriminate);
        assert (inventory_records (self w1) = []) as Hi by
          (destruct (inventory_records (self w1)) eqn:Heq; [reflexivity|];
           exfalso; apply Hd; right; rewrite Heq; discriminate);
        pose proof (merge_and_send_data_empty E w1 Hc Hi) as Hrun ]
  end.
  - rewrite Hrun.
    destruct (consume_messages_loop E source w2) as (w' & Hloop & Hclosed & Hbound).
    rewrite Hloop. exists w'. split; [reflexivity|]. split; [exact Hclosed|]. lia.
  - rewrite Hrun. unfold logger at 1. cbv beta iota.
    match goal with
    | |- context [consume_messages E source ?w2] =>
        destruct (consume_messages_loop E source w2)
          as (w' & Hloop & Hclosed & Hbound)
    end.
    rewrite Hloop. exists w'. split; [reflexivity|]. split; [exact Hclosed|].
    cbn in Hbound. lia.
Qed.

(** X10.  An event on one of the two topics whose payload is not a JSON object
    ends the loop: nothing of it is stored, no request is sent, the events
    after it are not handled, the error is logged and [consume_messages]
    returns normally with the Kafka consumer closed. *)
Theorem non_dict_payload_ends_loop E m rest w :
  topic m = CUSTOMER_TOPIC (config (self w))
    ∨ topic m = INVENTORY_TOPIC (config (self w)) →
  (∀ d, value m ≠ PyDict d) →
  ∃ w' msg, consume_messages E (Yield m :: rest) w = (Returns tt, w')
    ∧ self w' = self w
    ∧ http_calls w' = http_calls w
    ∧ consumer_closed w' = true
    ∧ log w' = log w ++ [Info_starting_loop; Debug_processing (topic m);
                         Error_in_loop msg].
Proof.
  intros Htopic Hv.
  destruct (route_not_dict E m
              (logger (Debug_processing (topic m))
                 (logger Info_starting_loop w).2).2 Htopic Hv) as (msg & Hroute).
  assert (consume_messages E (Yield m :: rest) w
          = try_finally
              (try_except
                 (bind (bind (route E m) (λ _, check_and_merge E))
                       (λ _, for_each_message E rest))
                 (logger Info_shutting_down)
                 (λ e, logger (Error_in_loop (exn_str e))))
              (consumer_close)
              (logger (Debug_processing (topic m))
                 (logger Info_starting_loop w).2).2) as -> by reflexivity.
  unfold try_finally, try_except, bind. rewrite Hroute.
  eexists _, msg. split; [reflexivity|]. cbn.
  rewrite <- !app_assoc. repeat split; reflexivity.
Qed.

Lemma non_dict_payload_ends_loop_witness :
  (topic array_event = CUSTOMER_TOPIC (config (self (one_customer env_ok)))
     ∨ topic array_event = INVENTORY_TOPIC (config (self (one_customer env_ok))))
  ∧ (∀ d, value array_event ≠ PyDict d)
  ∧ ∃ w' msg,
      consume_messages env_ok [Yield array_event; Yield order_event]
        (one_customer env_ok) = (Returns tt, w')
      ∧ self w' = self (one_customer env_ok)
      ∧ http_calls w' = http_calls (one_customer env_ok)
      ∧ consumer_closed w' = true
      ∧ log w' = log (one_customer env_ok)
                   ++ [Info_starting_loop; Debug_processing "customer_data";
                       Error_in_loop msg].
Proof.
  assert (topic array_event = CUSTOMER_TOPIC (config (self (one_customer env_ok)))
          ∨ topic array_event = INVENTORY_TOPIC (config (self (one_customer env_ok))))
    as Htopic by (left; reflexivity).
  assert (∀ d, value array_event ≠ PyDict d) as Hv by (intros d; discriminate).
  split; [exact Htopic|]. split; [exact Hv|].
  exact (non_dict_payload_ends_loop env_ok array_event [Yield order_event]
           (one_customer env_ok) Htopic Hv).
Defined.

(** X11.  When both topics are configured with the same name, the customer branch
    of the routing takes every event of that name: routing never appends to
    the inventory buffer, whatever the event. *)
Theorem shared_topic_name_starves_inventory E m w :
  CUSTOMER_TOPIC (config (self w)) = INVENTORY_TOPIC (config (self w)) →
  inventory_records (self (route E m w).2) = inventory_records (self w).
Proof.
  intros Hsame. unfold route, bind, gets, id. rewrite <- Hsame.
  destruct (bool_decide (topic m = CUSTOMER_TOPIC (config (self w))));
    [destruct (value m); reflexivity | reflexivity].
Qed.

Lemma shared_topic_name_starves_inventory_witness :
  CUSTOMER_TOPIC (config (self (init env_ok shared_topic_config)))
    = INVENTORY_TOPIC (config (self (init env_ok shared_topic_config)))
  ∧ inventory_records
      (self (route env_ok {| topic := "records"; value := PyDict sample_product |}
               (init env_ok shared_topic_config)).2) = []
  ∧ length (customer_records
      (self (route env_ok {| topic := "records"; value := PyDict sample_product |}
               (init env_ok shared_topic_config)).2)) = 1%nat.
Proof.
  split; [reflexivity|]. split.
  - exact (shared_topic_name_starves_inventory env_ok
             {| topic := "records"; value := PyDict sample_product |}
             (init env_ok shared_topic_config) eq_refl).
  - vm_compute. reflexivity.
Defined.

(** ** Properties of the mock services *)

(** *** Paging *)

(** For a page number from 1 on, the slice of the listing is [limit]
    records taken after skipping the pages before. *)
Lemma page_slice_take_drop {A} (records : list A) (page limit : Z) :
  1 ≤ page → 0 ≤ limit →
  MockApis.page_slice records page limit
    = take (Z.to_nat limit) (drop (Z.to_nat ((page - 1) * limit)) records).
Proof.
  intros Hpage Hlimit.
  unfold MockApis.page_slice, MockApis.py_slice, MockApis.slice_bound.
  set (start := (page - 1) * limit).
  set (len := Z.of_nat (length records)).
  assert (0 ≤ start) as Hstart by (unfold start; nia).
  rewrite !decide_False by lia.
  destruct (decide (len ≤ start)) as [Hout|Hin].
  - rewrite !Z.min_r by lia. replace (len - len) with 0 by lia.
    rewrite (drop_ge records (Z.to_nat start)) by (unfold len in Hout; lia).
    rewrite take_nil. apply take_0.
  - rewrite (Z.min_l start len) by lia.
    destruct (decide (start + limit ≤ len)) as [Hfull|Hlast].
    + rewrite Z.min_l by lia. f_equal. lia.
    + rewrite Z.min_r by lia.
      rewrite !take_ge; [reflexivity | |];
        rewrite length_drop; unfold len in *; lia.
Qed.

Lemma pages_prefix {A} (records : list A) (limit : Z) (n : nat) :
  0 ≤ limit →
  concat ((λ k, MockApis.page_slice records (Z.of_nat k) limit) <$> seq 1 n)
    = take (n * Z.to_nat limit) records.
Proof.
  intros Hlimit. induction n as [|n IH]; [reflexivity|].
  rewrite seq_S, fmap_app, concat_app, IH. simpl. rewrite app_nil_r.
  rewrite page_slice_take_drop by lia.
  replace (Z.to_nat ((Z.of_nat (S n) - 1) * limit))
    with (n * Z.to_nat limit)%nat by nia.
  rewrite take_take_drop. f_equal. lia.
Qed.

Lemma page_count_covers {A} (records : list A) (limit : Z) :
  1 ≤ limit →
  0 ≤ MockApis.page_count records limit
  ∧ Z.of_nat (length records) ≤ MockApis.page_count records limit * limit
  ∧ (MockApis.page_count records limit - 1) * limit < Z.of_nat (length records)
    ∨ (length records = 0%nat ∧ MockApis.page_count records limit = 0).
Proof.
  intros Hlimit. unfold MockApis.page_count.
  set (len := Z.of_nat (length records)).
  assert (0 ≤ len) as Hlen by (unfold len; lia).
  pose proof (Z.div_mod (len + limit - 1) limit ltac:(lia)) as Hdm.
  pose proof (Z.mod_pos_bound (len + limit - 1) limit ltac:(lia)) as Hmod.
  destruct (decide (len = 0)) as [Hzero|Hpos].
  - right. split; [unfold len in Hzero; lia|].
    rewrite Hzero. apply Z.div_small. lia.
  - left. split; [apply Z.div_pos; lia|]. split; nia.
Qed.

(** X12.  A client that asks for the pages 1 to [total_pages] with one [limit]
    of at least 1 is handed every record once, in the order of the list. *)
Theorem pages_cover_the_records {A} (records : list A) (limit : Z) :
  1 ≤ limit →
  concat ((λ k, MockApis.page_slice records (Z.of_nat k) limit)
            <$> seq 1 (Z.to_nat (MockApis.page_count records limit)))
    = records.
Proof.
  intros Hlimit. rewrite pages_prefix by lia. apply take_ge.
  destruct (page_count_covers records limit Hlimit)
    as [(Hpos & Hcover & _)|(Hzero & _)]; [nia | lia].
Qed.

Lemma pages_cover_the_records_witness :
  1 ≤ 2
  ∧ MockApis.page_count [10; 20; 30; 40; 50] 2 = 3
  ∧ concat ((λ k, MockApis.page_slice [10; 20; 30; 40; 50] (Z.of_nat k) 2)
              <$> seq 1 (Z.to_nat (MockApis.page_count [10; 20; 30; 40; 50] 2)))
      = [10; 20; 30; 40; 50].
Proof.
  split; [lia|]. split; [reflexivity|].
  apply (pages_cover_the_records [10; 20; 30; 40; 50] 2). lia.
Defined.

(** X13.  With a [limit] of at least 1, a page from 1 on holds at most [limit]
    records and is empty exactly when it lies beyond [total_pages]; page 0
    is always empty. *)
Theorem page_empty_iff_beyond_last {A} (records : list A) (page limit : Z) :
  1 ≤ limit →
  MockApis.page_slice records 0 limit = []
  ∧ (1 ≤ page →
       Z.of_nat (length (MockApis.page_slice records page limit)) ≤ limit
       ∧ (MockApis.page_slice records page limit = []
          ↔ MockApis.page_count records limit < page)).
Proof.
  intros Hlimit. split.
  - unfold MockApis.page_slice, MockApis.py_slice, MockApis.slice_bound.
    replace ((0 - 1) * limit + limit) with 0 by lia.
    replace ((0 - 1) * limit) with (- limit) by lia.
    destruct (decide (- limit < 0)) as [_|Hno]; [|lia].
    destruct (decide (0 < 0)) as [Hno|_]; [lia|].
    replace (Z.to_nat _) with 0%nat at 1 by lia. apply take_0.
  - intros Hpage. rewrite page_slice_take_drop by lia.
    split; [rewrite length_take; lia|].
    assert (take (Z.to_nat limit)
              (drop (Z.to_nat ((page - 1) * limit)) records) = []
            ↔ Z.of_nat (length records) ≤ (page - 1) * limit) as ->.
    { split.
      - intros Hnil. apply (f_equal length) in Hnil.
        rewrite length_take, length_drop in Hnil. simpl in Hnil. nia.
      - intros Hout. rewrite drop_ge by nia. apply take_nil. }
    destruct (page_count_covers records limit Hlimit)
      as [(Hpos & Hcover & Hlast)|(Hzero & Hcount)]; [nia|].
    rewrite Hcount, Hzero. simpl. nia.
Qed.

Lemma page_empty_iff_beyond_last_witness :
  1 ≤ 2 ∧ 1 ≤ 4
  ∧ MockApis.page_count [10; 20; 30; 40; 50] 2 < 4
  ∧ MockApis.page_slice [10; 20; 30; 40; 50] 4 2 = []
  ∧ MockApis.page_slice [10; 20; 30; 40; 50] 0 2 = [].
Proof.
  assert (1 ≤ 2) as Hlimit by lia. assert (1 ≤ 4) as Hpage by lia.
  assert (MockApis.page_count [10; 20; 30; 40; 50] 2 < 4) as Hlast
    by (vm_compute; reflexivity).
  destruct (page_empty_iff_beyond_last [10; 20; 30; 40; 50] 4 2 Hlimit)
    as [Hzero Hfrom1].
  split; [exact Hlimit|]. split; [exact Hpage|]. split; [exact Hlast|].
  split; [|exact Hzero].
  apply (proj2 (Hfrom1 Hpage)). exact Hlast.
Defined.

(** X14.  A listing is returned exactly when both arguments are integers (or
    left out), the limit is not 0 and the simulated failure does not
    strike; it then carries the slice of the asked page and the number of
    pages.  A limit of 0 never yields a listing. *)
Theorem listing_returned_iff {A} (py_int : string → option Z)
    (records : list A) (unavailable : string)
    (page_raw limit_raw : option string) (unlucky : bool)
    (l : MockApis.listing A) :
  MockApis.get_listing py_int records unavailable page_raw limit_raw unlucky
    = MockApis.Reply 200 (MockApis.Listing l)
  ↔ unlucky = false
    ∧ ∃ page limit,
        MockApis.int_arg py_int page_raw 1 = Some page
        ∧ MockApis.int_arg py_int limit_raw 100 = Some limit
        ∧ limit ≠ 0
        ∧ l = {| MockApis.data := MockApis.page_slice records page limit;
                 MockApis.page := page;
                 MockApis.limit := limit;
                 MockApis.total := Z.of_nat (length records);
                 MockApis.total_pages := MockApis.page_count records limit |}.
Proof.
  unfold MockApis.get_listing.
  destruct (MockApis.int_arg py_int page_raw 1) as [page|];
    [|split; [discriminate | intros (_ & ? & ? & [=] & _)]].
  destruct (MockApis.int_arg py_int limit_raw 100) as [limit|];
    [|split; [discriminate | intros (_ & ? & ? & _ & [=] & _)]].
  destruct unlucky; [split; [discriminate | intros ([=] & _)]|].
  destruct (decide (limit = 0)) as [Hzero|Hpos].
  - split; [discriminate|].
    intros (_ & page' & limit' & _ & [= <-] & Hne & _). contradiction.
  - split.
    + intros [= <-]. split; [reflexivity|]. exists page, limit. auto.
    + intros (_ & page' & limit' & [= <-] & [= <-] & _ & ->). reflexivity.
Qed.

(** *** Customers *)

Lemma max_id_bounds (first : Z) (others : list Z) :
  first ≤ MockApis.max_id first others
  ∧ Forall (λ x, x ≤ MockApis.max_id first others) others.
Proof.
  unfold MockApis.max_id. revert first.
  induction others as [|x others IH]; intros first; simpl.
  - split; [lia | constructor].
  - destruct (IH (Z.max first x)) as [Hfirst Hothers].
    split; [lia|]. constructor; [lia | exact Hothers].
Qed.

Lemma find_customer_app store c i :
  MockApis.find_customer (store ++ [c]) i
    = match MockApis.find_customer store i with
      | Some found => Some found
      | None => if bool_decide (MockApis.id c = i) then Some c else None
      end.
Proof.
  unfold MockApis.find_customer. induction store as [|c' store IH]; simpl.
  - reflexivity.
  - destruct (bool_decide (MockApis.id c' = i)); [reflexivity | exact IH].
Qed.

Lemma find_customer_fresh store i :
  Forall (λ c, MockApis.id c < i) store →
  MockApis.find_customer store i = None.
Proof.
  unfold MockApis.find_customer. induction 1 as [|c store Hc _ IH]; simpl.
  - reflexivity.
  - rewrite bool_decide_eq_false_2 by lia. exact IH.
Qed.

(** What [create_customer] does on a non-empty list with a dict payload. *)
Lemma create_customer_created store d today :
  store ≠ [] →
  ∃ c, MockApis.create_customer store (PyDict d) today
         = (MockApis.Reply 201 (MockApis.Customer c), store ++ [c])
    ∧ Forall (λ c', MockApis.id c' < MockApis.id c) store
    ∧ MockApis.name c = dict_get d "name"
    ∧ MockApis.email c = dict_get d "email"
    ∧ MockApis.created_date c = today
    ∧ MockApis.status c = "active".
Proof.
  intros Hne. destruct store as [|c0 rest]; [contradiction|].
  unfold MockApis.create_customer. rewrite fmap_cons.
  eexists. split; [reflexivity|]. simpl.
  split; [|auto].
  destruct (max_id_bounds (MockApis.id c0) (MockApis.id <$> rest))
    as [Hfirst Hothers].
  constructor; [lia|].
  rewrite Forall_forall in Hothers. apply Forall_forall. intros c' Hc'.
  assert (MockApis.id c' ∈ MockApis.id <$> rest) as Hin
    by (apply list_elem_of_fmap; exists c'; auto).
  specialize (Hothers _ Hin). simpl in Hothers. lia.
Qed.

(** X15.  On a non-empty list and a JSON object, [create_customer] replies 201
    and appends one customer whose id is greater than every id in the list,
    so ids that were pairwise distinct stay so; name and email are the
    payload's (null when missing) and the status is "active". *)
Theorem create_customer_assigns_fresh_id store d today :
  store ≠ [] →
  ∃ c, MockApis.create_customer store (PyDict d) today
         = (MockApis.Reply 201 (MockApis.Customer c), store ++ [c])
    ∧ Forall (λ c', MockApis.id c' < MockApis.id c) store
    ∧ (NoDup (MockApis.id <$> store) → NoDup (MockApis.id <$> (store ++ [c])))
    ∧ MockApis.name c = dict_get d "name"
    ∧ MockApis.email c = dict_get d "email"
    ∧ MockApis.status c = "active".
Proof.
  intros Hne.
  destruct (create_customer_created store d today Hne)
    as (c & Hrun & Hfresh & Hname & Hemail & _ & Hstatus).
  exists c. split; [exact Hrun|]. split; [exact Hfresh|].
  split; [|auto].
  intros Hnodup. rewrite fmap_app. apply NoDup_app.
  split; [exact Hnodup|]. split; [|apply NoDup_singleton].
  intros i Hi Hin. simpl in Hin. apply list_elem_of_singleton in Hin. subst i.
  apply list_elem_of_fmap in Hi as (c' & Heq & Hc').
  rewrite Forall_forall in Hfresh. specialize (Hfresh c' Hc'). lia.
Qed.

(** X16.  A customer just created is found under the id it was given, and every
    other id finds what it found before. *)
Theorem created_customer_is_found store d today :
  store ≠ [] →
  ∃ c store', MockApis.create_customer store (PyDict d) today
                = (MockApis.Reply 201 (MockApis.Customer c), store')
    ∧ MockApis.get_customer store' (MockApis.id c)
        = MockApis.Reply 200 (MockApis.Customer c)
    ∧ ∀ i, i ≠ MockApis.id c →
        MockApis.get_customer store' i = MockApis.get_customer store i.
Proof.
  intros Hne.
  destruct (create_customer_created store d today Hne)
    as (c & Hrun & Hfresh & _).
  exists c, (store ++ [c]). split; [exact Hrun|].
  unfold MockApis.get_customer. split.
  - rewrite find_customer_app, (find_customer_fresh _ _ Hfresh).
    rewrite bool_decide_eq_true_2 by reflexivity. reflexivity.
  - intros i Hi. rewrite find_customer_app.
    destruct (MockApis.find_customer store i); [reflexivity|].
    rewrite bool_decide_eq_false_2 by congruence. reflexivity.
Qed.

(** X17.  [create_customer] fails, and leaves the list as it is, on an empty
    list (there is no greatest id) and on a payload that is not a JSON
    object. *)
Theorem create_customer_failure_keeps_list store payload today :
  store = [] ∨ (∀ d, payload ≠ PyDict d) →
  ∃ e, MockApis.create_customer store payload today
         = (MockApis.Unhandled e, store).
Proof.
  intros [->|Hpayload]; [eexists; reflexivity|].
  unfold MockApis.create_customer.
  destruct (MockApis.id <$> store); [eexists; reflexivity|].
  destruct payload; try (eexists; reflexivity).
  exfalso. eapply Hpayload. reflexivity.
Qed.

Lemma create_customer_assigns_fresh_id_witness :
  mock_customers ≠ []
  ∧ NoDup (MockApis.id <$> mock_customers)
  ∧ ∃ c, MockApis.create_customer mock_customers (PyDict new_customer_payload)
           "2024-06-01"
           = (MockApis.Reply 201 (MockApis.Customer c), mock_customers ++ [c])
      ∧ MockApis.id c = 4
      ∧ NoDup (MockApis.id <$> (mock_customers ++ [c])).
Proof.
  assert (mock_customers ≠ []) as Hne by discriminate.
  assert (NoDup (MockApis.id <$> mock_customers)) as Hnodup.
  { simpl. apply NoDup_cons. split; [intros Hin|].
    { apply list_elem_of_In in Hin. simpl in Hin. lia. }
    apply NoDup_cons. split; [intros Hin|].
    { apply list_elem_of_In in Hin. simpl in Hin. lia. }
    apply NoDup_singleton. }
  split; [exact Hne|]. split; [exact Hnodup|].
  destruct (create_customer_assigns_fresh_id mock_customers
              new_customer_payload "2024-06-01" Hne)
    as (c & Hrun & _ & Hkeep & _).
  exists c. split; [exact Hrun|]. split; [|exact (Hkeep Hnodup)].
  injection Hrun as <-. reflexivity.
Defined.

Lemma created_customer_is_found_witness :
  mock_customers ≠ []
  ∧ ∃ c store', MockApis.create_customer mock_customers
                  (PyDict new_customer_payload) "2024-06-01"
                  = (MockApis.Reply 201 (MockApis.Customer c), store')
      ∧ MockApis.get_customer store' (MockApis.id c)
          = MockApis.Reply 200 (MockApis.Customer c)
      ∧ MockApis.get_customer store' 2 = MockApis.get_customer mock_customers 2.
Proof.
  assert (mock_customers ≠ []) as Hne by discriminate.
  split; [exact Hne|].
  destruct (created_customer_is_found mock_customers new_customer_payload
              "2024-06-01" Hne) as (c & store' & Hrun & Hfound & Hother).
  exists c, store'. split; [exact Hrun|]. split; [exact Hfound|].
  apply Hother. injection Hrun as <- _. simpl. lia.
Defined.

Lemma create_customer_failure_keeps_list_witness :
  (mock_customers = [] ∨ ∀ d, PyList [] ≠ PyDict d)
  ∧ ∃ e, MockApis.create_customer mock_customers (PyList []) "2024-06-01"
           = (MockApis.Unhandled e, mock_customers).
Proof.
  assert (mock_customers = [] ∨ ∀ d, PyList [] ≠ PyDict d) as Hbad
    by (right; intros d; discriminate).
  split; [exact Hbad|].
  exact (create_customer_failure_keeps_list mock_customers (PyList [])
           "2024-06-01" Hbad).
Defined.

(** *** The analytics receiver *)

(** What the receiver does with a batch of the consumer. *)
Lemma receive_merged_data float_nonzero str_len (m : MergedData) now :
  MockApis.receive_analytics_data float_nonzero str_len
    (MockApis.merged_data_json m) now
  = MockApis.Reply 200 (MockApis.Processed
      {| MockApis.customers_processed := length (customers m);
         MockApis.inventory_processed := length (inventory m);
         MockApis.total_records := length (customers m) + length (inventory m);
         MockApis.processed_at := now |}).
Proof.
  unfold MockApis.receive_analytics_data, MockApis.merged_data_json.
  match goal with |- context [PyDict ?d] => set (dm := d) end.
  assert (dm !! "customers" = Some (PyList (PyDict <$> customers m)))
    as Hc by reflexivity.
  assert (dm !! "inventory" = Some (PyList (PyDict <$> inventory m)))
    as Hi by reflexivity.
  assert (dm !! "summary" = Some (MockApis.summary_json (summary m)))
    as Hs by reflexivity.
  assert (dm ≠ ∅) as Hne by apply insert_non_empty.
  cbn [MockApis.truthy]. rewrite (bool_decide_eq_false_2 _ Hne). cbn [negb].
  unfold MockApis.count_merged. rewrite Hc, Hi, Hs.
  unfold MockApis.summary_json.
  cbn [default from_option id MockApis.py_len MockApis.truthy].
  rewrite bool_decide_eq_false_2 by apply insert_non_empty. cbn [negb].
  rewrite !length_fmap. reflexivity.
Qed.

(** X18.  The receiver answers every batch the consumer builds with status 200,
    and the counts in its receipt are the totals of the batch's summary. *)
Theorem receiver_counts_match_summary float_nonzero str_len E c t now :
  ∃ r, MockApis.receive_analytics_data float_nonzero str_len
         (MockApis.merged_data_json (merged_data_of E c t)) now
         = MockApis.Reply 200 (MockApis.Processed r)
    ∧ MockApis.customers_processed r
        = total_customers (summary (merged_data_of E c t))
    ∧ MockApis.inventory_processed r
        = total_products (summary (merged_data_of E c t))
    ∧ MockApis.total_records r
        = (total_customers (summary (merged_data_of E c t))
           + total_products (summary (merged_data_of E c t)))%nat.
Proof.
  eexists. split; [apply receive_merged_data|]. simpl. auto.
Qed.

(** X19.  When the analytics endpoint is the mock receiver, reached through
    [requests.post], a merge made with data at hand is delivered, and so
    trims both buffers, when the batch can be serialised; a batch that
    holds a NaN or an infinite float is not delivered and leaves the
    consumer as it was. *)
Theorem merge_against_receiver_delivered_iff_sendable
    float_finite float_nonzero str_len E w :
  served_by_receiver float_finite float_nonzero str_len E →
  has_data (self w) →
  (sendable float_finite (json (dispatch_request E w)) = true →
     delivered (dispatch_answer E w)
     ∧ customer_records (self (merge_and_send_data E w).2)
         = keep_last_100 (customer_records (self w))
     ∧ inventory_records (self (merge_and_send_data E w).2)
         = keep_last_100 (inventory_records (self w)))
  ∧ (sendable float_finite (json (dispatch_request E w)) = false →
     ¬ delivered (dispatch_answer E w)
     ∧ self (merge_and_send_data E w).2 = self w).
Proof.
  intros Hserved Hd.
  specialize (Hserved (length (http_calls w)) (dispatch_request E w)).
  destruct (merge_buffers_after E w Hd) as [Hyes Hno].
  split; intros Hsend; rewrite Hsend in Hserved.
  - assert (delivered (dispatch_answer E w)) as Ha.
    { unfold dispatch_answer. destruct Hserved as (now & text & ->).
      rewrite receive_merged_data. reflexivity. }
    split; [exact Ha | exact (Hyes Ha)].
  - assert (¬ delivered (dispatch_answer E w)) as Ha.
    { unfold dispatch_answer. destruct Hserved as (msg & ->).
      intros Hfalse. exact Hfalse. }
    split; [exact Ha | exact (Hno Ha)].
Qed.

Lemma served_by_receiver_sample :
  served_by_receiver finite_literal (λ _, true) String.length env_receiver.
Proof.
  intros k req. simpl.
  destruct (sendable finite_literal (json req)); eexists; try eexists;
    reflexivity.
Qed.

Lemma merge_against_receiver_delivered_iff_sendable_witness :
  served_by_receiver finite_literal (λ _, true) String.length env_receiver
  ∧ (has_data (self (one_of_each env_receiver))
     ∧ sendable finite_literal
         (json (dispatch_request env_receiver (one_of_each env_receiver))) = true
     ∧ delivered (dispatch_answer env_receiver (one_of_each env_receiver)))
  ∧ (has_data (self (one_nan_product env_receiver))
     ∧ sendable finite_literal
         (json (dispatch_request env_receiver (one_nan_product env_receiver)))
         = false
     ∧ self (merge_and_send_data env_receiver (one_nan_product env_receiver)).2
         = self (one_nan_product env_receiver)).
Proof.
  pose proof served_by_receiver_sample as Hserved.
  assert (has_data (self (one_of_each env_receiver))) as Hd
    by (apply has_data_customers; vm_compute; lia).
  assert (has_data (self (one_nan_product env_receiver))) as Hd'.
  { right. intros Hnil. apply (f_equal length) in Hnil.
    vm_compute in Hnil. discriminate. }
  assert (sendable finite_literal
            (json (dispatch_request env_receiver (one_of_each env_receiver)))
          = true) as Hsend by (vm_compute; reflexivity).
  assert (sendable finite_literal
            (json (dispatch_request env_receiver (one_nan_product env_receiver)))
          = false) as Hsend' by (vm_compute; reflexivity).
  split; [exact Hserved|]. split.
  - split; [exact Hd|]. split; [exact Hsend|].
    exact (proj1 (proj1 (merge_against_receiver_delivered_iff_sendable
                           finite_literal (λ _, true) String.length
                           env_receiver (one_of_each env_receiver)
                           Hserved Hd) Hsend)).
  - split; [exact Hd'|]. split; [exact Hsend'|].
    exact (proj2 (proj2 (merge_against_receiver_delivered_iff_sendable
                           finite_literal (λ _, true) String.length
                           env_receiver (one_nan_product env_receiver)
                           Hserved Hd') Hsend')).
Defined.

(** X20.  A JSON object whose "customers" entry is present but has no length
    (null, a number, a boolean) is answered with status 500: the empty-list
    default only stands in for a missing key. *)
Theorem receiver_unsized_customers_is_500 float_nonzero str_len
    (d : pydict) (v : pyval) now :
  d !! "customers" = Some v →
  MockApis.py_len str_len v = None →
  MockApis.receive_analytics_data float_nonzero str_len (PyDict d) now
    = MockApis.Reply 500 (MockApis.Failed MockApis.TypeError).
Proof.
  intros Hv Hlen. unfold MockApis.receive_analytics_data.
  assert (d ≠ ∅) as Hne by (intros ->; rewrite lookup_empty in Hv; discriminate).
  cbn [MockApis.truthy]. rewrite (bool_decide_eq_false_2 _ Hne). cbn [negb].
  unfold MockApis.count_merged. rewrite Hv.
  cbn [default from_option id]. rewrite Hlen. reflexivity.
Qed.

Lemma receiver_unsized_customers_is_500_witness :
  (<["customers" := PyNone]> ∅ : pydict) !! "customers" = Some PyNone
  ∧ MockApis.py_len String.length PyNone = None
  ∧ MockApis.receive_analytics_data (λ _, true) String.length
      (PyDict (<["customers" := PyNone]> ∅)) "2024-01-15T10:00:00"
    = MockApis.Reply 500 (MockApis.Failed MockApis.TypeError).
Proof.
  split; [reflexivity|]. split; [reflexivity|].
  apply (receiver_unsized_customers_is_500 (λ _, true) String.length
           (<["customers" := PyNone]> ∅) PyNone); reflexivity.
Defined.
